(** * Health Companion API: the symptom-check conversation core

    A shallow embedding of [backend/server.py]: the chat collection and the
    three handlers working on it ([symptom_check], [get_chat_history],
    [get_chat_sessions]) and the advisory table of [get_weather].

    Conventions of the model.
    - Python [str] values are [string]s; the text handled is ASCII, so
      [str.lower] and [str.capitalize] act on the letters A-Z / a-z.
    - [datetime] values are integers (a count of microseconds).
    - [temp_c] is a finite JSON number, hence a rational ([Q]).
    - [db.chats] is the list of its documents in natural (insertion) order.
    - The outside world met by one request (the uuid drawn, the clock
      readings, the answer of the generative model) is an [Env] record. *)

From Stdlib Require Import String Ascii List Bool Arith ZArith QArith Lia.
From Stdlib Require Import Sorting.Sorted.
Import ListNotations.

Local Close Scope Q_scope.
Local Open Scope string_scope.
Local Open Scope list_scope.

(** ** Python primitives used by the handlers *)

Module Py.

(** The one-character string [chr 10]. *)
Definition nl : string := String (ascii_of_nat 10) EmptyString.

Definition is_upper (c : ascii) : bool :=
  (65 <=? nat_of_ascii c)%nat && (nat_of_ascii c <=? 90)%nat.

Definition is_lower (c : ascii) : bool :=
  (97 <=? nat_of_ascii c)%nat && (nat_of_ascii c <=? 122)%nat.

Definition lower_char (c : ascii) : ascii :=
  if is_upper c then ascii_of_nat (nat_of_ascii c + 32) else c.

Definition upper_char (c : ascii) : ascii :=
  if is_lower c then ascii_of_nat (nat_of_ascii c - 32) else c.

(** [s.lower()] *)
Fixpoint lower (s : string) : string :=
  match s with
  | EmptyString => EmptyString
  | String c s' => String (lower_char c) (lower s')
  end.

(** [s.capitalize()]: first character upper-cased, the rest lower-cased. *)
Definition capitalize (s : string) : string :=
  match s with
  | EmptyString => EmptyString
  | String c s' => String (upper_char c) (lower s')
  end.

(** [sub in s] on strings: [sub] occurs somewhere in [s]. *)
Fixpoint contains (sub s : string) : bool :=
  String.prefix sub s ||
  match s with
  | EmptyString => false
  | String _ s' => contains sub s'
  end.

(** [s[:n]] *)
Definition str_take (n : nat) (s : string) : string := String.substring 0 n s.

(** [l[-n:]] for a positive literal [n]: the slice starts at
    [max (len l - n) 0]. *)
Definition slice_last {A : Type} (n : nat) (l : list A) : list A :=
  skipn (length l - n) l.

(** [l[-1] if l else None] *)
Definition last_or_none {A : Type} (l : list A) : option A :=
  match l with
  | [] => None
  | _ => nth_error l (length l - 1)
  end.

(** [sep.join(parts)] *)
Definition join (sep : string) (parts : list string) : string :=
  String.concat sep parts.

(** Truthiness of an [Optional[str]]: [None] and the empty string are
    falsy. *)
Definition truthy (o : option string) : bool :=
  match o with
  | None => false
  | Some s => negb (String.eqb s "")
  end.

End Py.

(** ** Data model *)

Definition datetime := Z.
Bind Scope Z_scope with datetime.

(** One entry of a chat document's ["messages"] array. *)
Record Message := mkMessage {
  role : string;
  content : string;
  timestamp : datetime
}.

(** A document of the [chats] collection. *)
Record ChatDoc := mkChatDoc {
  session_id : string;
  user_id : string;
  messages : list Message;
  created_at : datetime
}.

Record ChatRequest := mkChatRequest {
  req_message : string;
  req_session_id : option string
}.

Record ChatResponse := mkChatResponse {
  response : string;
  symptom : option string;
  possible_causes : list string;
  advice : string;
  resp_session_id : string
}.

(** [HTTPException(status_code, detail)] *)
Record HTTPException := mkHTTPException {
  status_code : nat;
  detail : string
}.

(** What [model.generate_content(prompt).text] does: it returns the text or
    raises, with the message of the exception. *)
Inductive Completion :=
| Completed (text : string)
| CompletionFailed (err : string).

(** The environment of one request. *)
Record Env := mkEnv {
  uuid4 : string;                       (* str(uuid.uuid4()) *)
  now_created : datetime;               (* utcnow() of a new document *)
  now_user : datetime;                  (* utcnow() of the user message *)
  now_ai : datetime;                    (* utcnow() of the assistant message *)
  generate_content : string -> Completion
}.

(** ** The chats collection *)

Module Chats.

Definition collection := list ChatDoc.

(** The filter [{"session_id": sid, "user_id": uid}]. *)
Definition matches (sid uid : string) (d : ChatDoc) : bool :=
  String.eqb (session_id d) sid && String.eqb (user_id d) uid.

(** [find_one(filter)]: the first matching document, if any. *)
Definition find_one (sid uid : string) (db : collection) : option ChatDoc :=
  List.find (matches sid uid) db.

(** [update_one(filter, {"$set": doc}, upsert=True)]: every field of [doc]
    is written over the first matching document; without a match the
    document is inserted. *)
Fixpoint update_one (sid uid : string) (doc : ChatDoc) (db : collection)
  : collection :=
  match db with
  | [] => [doc]
  | d :: rest =>
      if matches sid uid d then doc :: rest
      else d :: update_one sid uid doc rest
  end.

(** Insertion of [d] into a list sorted by [created_at], newest first. *)
Fixpoint insert_desc (d : ChatDoc) (l : list ChatDoc) : list ChatDoc :=
  match l with
  | [] => [d]
  | e :: rest =>
      if (created_at e <=? created_at d)%Z then d :: l
      else e :: insert_desc d rest
  end.

(** [.sort("created_at", -1)]: the sort of the database, modelled by an
    insertion sort that keeps documents of equal [created_at] in their
    order of insertion. *)
Fixpoint sort_created_desc (l : list ChatDoc) : list ChatDoc :=
  match l with
  | [] => []
  | d :: rest => insert_desc d (sort_created_desc rest)
  end.

(** [find({"user_id": uid})] *)
Definition find_user (uid : string) (db : collection) : list ChatDoc :=
  filter (fun d => String.eqb (user_id d) uid) db.

End Chats.

(** ** POST /chat/symptom-check *)

Definition system_prompt : string :=
  "You are a helpful health assistant that provides general, educational health guidance."
  ++ Py.nl ++ "        "
  ++ Py.nl ++ "IMPORTANT GUIDELINES:"
  ++ Py.nl ++ "- You do NOT provide medical diagnoses"
  ++ Py.nl ++ "- You provide educational information about possible causes of symptoms"
  ++ Py.nl ++ "- You always recommend consulting a healthcare professional for proper diagnosis"
  ++ Py.nl ++ "- Keep responses concise, friendly, and supportive"
  ++ Py.nl ++ "- Focus on general wellness advice"
  ++ Py.nl
  ++ Py.nl ++ "When analyzing symptoms, respond with:"
  ++ Py.nl ++ "1. Brief acknowledgment of the symptom"
  ++ Py.nl ++ "2. 2-3 possible common causes (general education only)"
  ++ Py.nl ++ "3. Self-care advice"
  ++ Py.nl ++ "4. Always end with a reminder to consult a doctor if symptoms persist or worsen"
  ++ Py.nl
  ++ Py.nl ++ "Keep your response under 150 words.".

Definition static_advice : string :=
  "Remember to stay hydrated and rest. Consult a doctor if symptoms persist.".

(** [request.session_id or str(uuid.uuid4())] *)
Definition resolve_session_id (request : ChatRequest) (env : Env) : string :=
  match req_session_id request with
  | Some s => if Py.truthy (Some s) then s else uuid4 env
  | None => uuid4 env
  end.

(** The working copy: the stored document, or a new one with no messages.
    [find_one] hands out a document decoded from the store, so appending
    to the working copy leaves the collection as it is until [update_one]
    writes the copy back. *)
Definition load_chat_doc (db : Chats.collection) (sid uid : string) (env : Env)
  : ChatDoc :=
  match Chats.find_one sid uid db with
  | Some d => d
  | None => mkChatDoc sid uid [] (now_created env)
  end.

Definition user_message (request : ChatRequest) (env : Env) : Message :=
  mkMessage "user" (req_message request) (now_user env).

Definition ai_message (ai_response : string) (env : Env) : Message :=
  mkMessage "assistant" ai_response (now_ai env).

(** [chat_doc["messages"].append(m)] *)
Definition append_message (d : ChatDoc) (m : Message) : ChatDoc :=
  mkChatDoc (session_id d) (user_id d) (messages d ++ [m]) (created_at d).

(** [f"{msg['role']}: {msg['content']}"] *)
Definition history_line (m : Message) : string :=
  role m ++ ": " ++ content m.

Definition context_window (msgs : list Message) : list Message :=
  Py.slice_last 6 msgs.

Definition conversation_history (msgs : list Message) : string :=
  Py.join Py.nl (map history_line (context_window msgs)).

Definition full_prompt (msgs : list Message) : string :=
  system_prompt ++ Py.nl ++ Py.nl ++ "Conversation:" ++ Py.nl
  ++ conversation_history msgs.

Definition symptom_keywords : list string :=
  ["headache"; "fever"; "cough"; "pain"; "tired"; "nausea"; "dizzy"].

(** The [for keyword in symptom_keywords: ... break] loop. *)
Fixpoint scan_keywords (keywords : list string) (lower_message : string)
  : option string :=
  match keywords with
  | [] => None
  | keyword :: rest =>
      if Py.contains keyword lower_message
      then Some (Py.capitalize keyword)
      else scan_keywords rest lower_message
  end.

Definition extract_symptom (message : string) : option string :=
  scan_keywords symptom_keywords (Py.lower message).

(** The handler runs in three stretches separated by its two awaited store
    calls: [turn_read] ends with [find_one], [turn_work] is the synchronous
    middle up to the call of [update_one], [turn_commit] is that call and
    the construction of the response. *)

Definition turn_read (db : Chats.collection) (uid : string)
  (request : ChatRequest) (env : Env) : ChatDoc :=
  load_chat_doc db (resolve_session_id request env) uid env.

(** The prompt handed to the completion client. *)
Definition turn_prompt (chat_doc : ChatDoc) (request : ChatRequest) (env : Env)
  : string :=
  full_prompt (messages (append_message chat_doc (user_message request env))).

Definition turn_work (chat_doc : ChatDoc) (request : ChatRequest) (env : Env)
  : HTTPException + (ChatDoc * string) :=
  let with_user := append_message chat_doc (user_message request env) in
  match generate_content env (full_prompt (messages with_user)) with
  | CompletionFailed e =>
      inl (mkHTTPException 500 ("Error processing symptom check: " ++ e))
  | Completed ai_response =>
      inr (append_message with_user (ai_message ai_response env), ai_response)
  end.

Definition turn_commit (db : Chats.collection) (uid : string)
  (request : ChatRequest) (env : Env) (chat_doc : ChatDoc)
  (ai_response : string) : Chats.collection * ChatResponse :=
  let sid := resolve_session_id request env in
  (Chats.update_one sid uid chat_doc db,
   mkChatResponse ai_response (extract_symptom (req_message request)) []
     static_advice sid).

Definition symptom_check (db : Chats.collection) (uid : string)
  (request : ChatRequest) (env : Env)
  : Chats.collection * (HTTPException + ChatResponse) :=
  match turn_work (turn_read db uid request env) request env with
  | inl e => (db, inl e)
  | inr (chat_doc, ai_response) =>
      let '(db', r) := turn_commit db uid request env chat_doc ai_response in
      (db', inr r)
  end.

(** ** GET /chat/history/{session_id} *)

Definition get_chat_history (db : Chats.collection) (sid uid : string)
  : list Message :=
  match Chats.find_one sid uid db with
  | None => []
  | Some chat => messages chat
  end.

(** ** GET /chat/sessions *)

Record SessionSummary := mkSessionSummary {
  sum_session_id : string;
  sum_created_at : datetime;
  last_message : string;
  message_count : nat
}.

Definition sessions_limit : nat := 20.

Definition listed_chats (db : Chats.collection) (uid : string) : list ChatDoc :=
  firstn sessions_limit (Chats.sort_created_desc (Chats.find_user uid db)).

Definition summarize (chat : ChatDoc) : SessionSummary :=
  mkSessionSummary (session_id chat) (created_at chat)
    match Py.last_or_none (messages chat) with
    | Some m => Py.str_take 50 (content m) ++ "..."
    | None => ""
    end
    (length (messages chat)).

Definition get_chat_sessions (db : Chats.collection) (uid : string)
  : list SessionSummary :=
  map summarize (listed_chats db uid).

(** ** GET /weather: the health alert derived from the provider's data *)

Module Weather.

Local Open Scope Q_scope.

(** [x < y] on finite numbers, as a test. *)
Definition Qltb (x y : Q) : bool :=
  (Qnum x * QDen y <? Qnum y * QDen x)%Z.

Definition hot_text : string :=
  "It's hot today! Stay hydrated and avoid prolonged sun exposure. 💧☀️".
Definition pleasant_text : string :=
  "Pleasant weather! Great day for outdoor activities. 🌤️".
Definition cold_text : string :=
  "It's cold! Dress warmly and stay cozy. 🧥❄️".
Definition freezing_text : string :=
  "Freezing temperatures! Bundle up and limit time outdoors. 🥶".
Definition rain_text : string :=
  "Rainy weather. Stay dry and be careful if going out. ☔".
Definition default_text : string :=
  "Comfortable weather. Perfect for a walk! 🚶‍♂️".

(** The [if / elif / else] chain of [get_weather]. *)
Definition alert_message (temp_c : Q) (condition : string) : string :=
  if Qltb 30 temp_c then hot_text
  else if Qltb 25 temp_c then pleasant_text
  else if Qltb temp_c 10 then cold_text
  else if Qltb temp_c 0 then freezing_text
  else if Py.contains "rain" (Py.lower condition) then rain_text
  else default_text.

(** The threshold table as the specification words it: tests in a fixed
    order, each with its advisory, the first one that holds wins. *)
Definition branch := ((Q -> string -> bool) * string)%type.

Definition advisory_table : list branch :=
  [ (fun t _ => Qltb 30 t, hot_text);
    (fun t _ => Qltb 25 t, pleasant_text);
    (fun t _ => Qltb t 10, cold_text);
    (fun t _ => Qltb t 0, freezing_text);
    (fun _ c => Py.contains "rain" (Py.lower c), rain_text) ].

Fixpoint first_match (table : list branch) (otherwise : string)
  (t : Q) (c : string) : string :=
  match table with
  | [] => otherwise
  | (test, text) :: rest =>
      if test t c then text else first_match rest otherwise t c
  end.

End Weather.

(** ** Sequences of turns and interleavings *)

(** The environment [env] with another completion client. *)
Definition with_client (env : Env) (g : string -> Completion) : Env :=
  mkEnv (uuid4 env) (now_created env) (now_user env) (now_ai env) g.

Record Turn := mkTurn {
  turn_user : string;
  turn_request : ChatRequest;
  turn_env : Env
}.

Definition Outcome : Type := (HTTPException + ChatResponse)%type.

(** Requests handled one after the other, each to its end. *)
Fixpoint run_turns (db : Chats.collection) (turns : list Turn)
  : Chats.collection * list Outcome :=
  match turns with
  | [] => (db, [])
  | t :: rest =>
      let '(db1, r) :=
        symptom_check db (turn_user t) (turn_request t) (turn_env t) in
      let '(db2, rs) := run_turns db1 rest in
      (db2, r :: rs)
  end.

(** The turn addresses the session [(uid, sid)]. *)
Definition on_session (sid uid : string) (t : Turn) : bool :=
  String.eqb (resolve_session_id (turn_request t) (turn_env t)) sid
  && String.eqb (turn_user t) uid.

(** The turn addressed the session and succeeded. *)
Definition counts (sid uid : string) (t : Turn) (r : Outcome) : bool :=
  match r with
  | inr _ => on_session sid uid t
  | inl _ => false
  end.

(** What a turn adds to the session: its user message, then the reply. *)
Definition exchange_of (sid uid : string) (t : Turn) (r : Outcome)
  : list Message :=
  match r with
  | inr resp =>
      if on_session sid uid t
      then [user_message (turn_request t) (turn_env t);
            ai_message (response resp) (turn_env t)]
      else []
  | inl _ => []
  end.

Fixpoint exchanges (sid uid : string) (turns : list Turn) (rs : list Outcome)
  : list Message :=
  match turns, rs with
  | t :: turns', r :: rs' =>
      exchange_of sid uid t r ++ exchanges sid uid turns' rs'
  | _, _ => []
  end.

Fixpoint successful_turns (sid uid : string) (turns : list Turn)
  (rs : list Outcome) : nat :=
  match turns, rs with
  | t :: turns', r :: rs' =>
      (if counts sid uid t r then 1 else 0)
      + successful_turns sid uid turns' rs'
  | _, _ => 0
  end.

Fixpoint alternating (n : nat) : list string :=
  match n with
  | O => []
  | S n' => "user" :: "assistant" :: alternating n'
  end.

(** A request between its awaited store calls: not yet started, holding
    the answer of [find_one], or finished. *)
Inductive Task :=
| Waiting (uid : string) (request : ChatRequest) (env : Env)
| Loaded (uid : string) (request : ChatRequest) (env : Env)
    (chat_doc : ChatDoc)
| Finished (result : Outcome).

(** A task runs up to its next awaited store call: the first stretch ends
    with the answer of [find_one], the second one does the synchronous
    middle of the handler and the [update_one]. *)
Definition step_task (db : Chats.collection) (t : Task)
  : Chats.collection * Task :=
  match t with
  | Waiting uid request env =>
      (db, Loaded uid request env (turn_read db uid request env))
  | Loaded uid request env chat_doc =>
      match turn_work chat_doc request env with
      | inl e => (db, Finished (inl e))
      | inr (chat_doc', ai_response) =>
          let '(db', r) :=
            turn_commit db uid request env chat_doc' ai_response in
          (db', Finished (inr r))
      end
  | Finished r => (db, Finished r)
  end.

Inductive Who := First | Second.

(** The event loop resumes the two tasks in the order of the schedule. *)
Fixpoint run_schedule (schedule : list Who) (db : Chats.collection)
  (a b : Task) : Chats.collection * Task * Task :=
  match schedule with
  | [] => (db, a, b)
  | First :: rest =>
      let '(db', a') := step_task db a in run_schedule rest db' a' b
  | Second :: rest =>
      let '(db', b') := step_task db b in run_schedule rest db' a b'
  end.

(** ** Ordering of listed sessions *)

(** Newest first: [a] may stand before [b]. *)
Definition newer_first (a b : ChatDoc) : Prop :=
  (created_at b <= created_at a)%Z.

(** ** Sample data *)

(** Sample environments: a client that answers, a client that raises. *)
Definition env_ok (t : Z) (reply : string) : Env :=
  mkEnv "7c1e0c1a-fresh" t (t + 1) (t + 2) (fun _ => Completed reply).

Definition env_down (t : Z) : Env :=
  mkEnv "7c1e0c1a-fresh" t (t + 1) (t + 2)
    (fun _ => CompletionFailed "503 model overloaded").

Definition sample_store : Chats.collection :=
  [ mkChatDoc "s1" "alice"
      [mkMessage "user" "I have a cough" 10;
       mkMessage "assistant" "Drink warm fluids." 11] 9 ].

Definition sample_long_content : string :=
  "I have had a pounding headache since yesterday morning and it will not stop".

Definition sample_sessions : Chats.collection :=
  [ mkChatDoc "s1" "alice"
      [mkMessage "user" "hi" 10; mkMessage "assistant" sample_long_content 11] 5;
    mkChatDoc "s2" "bob" [] 6;
    mkChatDoc "s3" "alice" [] 9 ].

Definition sample_turns : list Turn :=
  [ mkTurn "alice" (mkChatRequest "I have a headache" (Some "s7"))
      (env_ok 100 "Rest in a quiet room.");
    mkTurn "bob" (mkChatRequest "I have a cough" None)
      (env_ok 200 "Drink warm fluids.");
    mkTurn "alice" (mkChatRequest "It is getting worse" (Some "s7"))
      (env_down 300);
    mkTurn "alice" (mkChatRequest "Now also a fever" (Some "s7"))
      (env_ok 400 "Keep hydrated and see a doctor.") ].

(** ** Users: POST /auth/google and PUT /user/profile *)

(** A document of the [users] collection. *)
Record User := mkUser {
  u_id : string;
  u_name : string;
  u_email : string;
  u_avatar : string;
  u_created_at : datetime;
  u_last_active : datetime
}.

Module Users.

Definition collection := list User.

(** [find_one({"email": email})] *)
Definition find_by_email (email : string) (users : collection) : option User :=
  List.find (fun u => String.eqb (u_email u) email) users.

(** [find_one({"id": id})] *)
Definition find_by_id (id : string) (users : collection) : option User :=
  List.find (fun u => String.eqb (u_id u) id) users.

(** [insert_one(user)] *)
Definition insert_one (user : User) (users : collection) : collection :=
  users ++ [user].

(** [update_one({"id": id}, {"$set": ...})]: the change [f] is applied to
    the first document with that id; without one nothing happens. *)
Fixpoint update_by_id (id : string) (f : User -> User) (users : collection)
  : collection :=
  match users with
  | [] => []
  | u :: rest =>
      if String.eqb (u_id u) id then f u :: rest
      else u :: update_by_id id f rest
  end.

Definition set_last_active (t : datetime) (u : User) : User :=
  mkUser (u_id u) (u_name u) (u_email u) (u_avatar u) (u_created_at u) t.

Definition set_name (name : string) (u : User) : User :=
  mkUser (u_id u) name (u_email u) (u_avatar u) (u_created_at u)
    (u_last_active u).

End Users.

(** The claims of a verified Google token: [response.json()], of which the
    handler reads ["email"], ["name"] and ["picture"]. *)
Record GoogleUser := mkGoogleUser {
  g_email : option string;
  g_name : option string;
  g_picture : option string
}.

(** What the request to the token-info endpoint does: it raises, or it
    answers with a status code and a body that [json()] decodes or not. *)
Inductive TokenInfo :=
| TokenInfoRaised (err : string)
| TokenInfoAnswered (status : nat) (body : string + GoogleUser).

(** The environment of one call of [google_auth]. *)
Record AuthEnv := mkAuthEnv {
  tokeninfo : TokenInfo;
  auth_uuid4 : string;
  auth_now1 : datetime;       (* first utcnow() of the branch taken *)
  auth_now2 : datetime;       (* second utcnow() of the creation branch *)
  auth_now_token : datetime;  (* utcnow() of create_access_token *)
  jwt_encode : string -> datetime -> string;  (* jwt.encode of sub and exp *)
  str_exc : HTTPException -> string           (* str(e) of an HTTPException *)
}.

Record AuthUser := mkAuthUser {
  au_id : string;
  au_name : string;
  au_email : string;
  au_avatar : string
}.

Record AuthResponse := mkAuthResponse {
  access_token : string;
  token_type : string;
  auth_user : AuthUser
}.

(** [timedelta(minutes=n)] in microseconds. *)
Definition minutes (n : Z) : Z := (n * 60000000)%Z.

Definition ACCESS_TOKEN_EXPIRE_MINUTES : Z := (60 * 24 * 7)%Z.

(** [create_access_token({"sub": sub})] *)
Definition create_access_token (env : AuthEnv) (sub : string) : string :=
  jwt_encode env sub
    (auth_now_token env + minutes ACCESS_TOKEN_EXPIRE_MINUTES)%Z.

(** [d.get(key, "")] on the decoded claims. *)
Definition get_or_empty (o : option string) : string :=
  match o with
  | Some s => s
  | None => ""
  end.

Definition auth_response (env : AuthEnv) (user : User) : AuthResponse :=
  mkAuthResponse (create_access_token env (u_id user)) "bearer"
    (mkAuthUser (u_id user) (u_name user) (u_email user) (u_avatar user)).

(** The handler: every exception of the body, the [HTTPException(400)] of
    a rejected token included, is caught by [except Exception] and raised
    again as a 500 with [str(e)] as detail. *)
Definition google_auth (users : Users.collection) (env : AuthEnv)
  : Users.collection * (HTTPException + AuthResponse) :=
  match tokeninfo env with
  | TokenInfoRaised err => (users, inl (mkHTTPException 500 err))
  | TokenInfoAnswered status body =>
      if negb (status =? 200)%nat then
        (users,
         inl (mkHTTPException 500
                (str_exc env (mkHTTPException 400 "Invalid token"))))
      else
        match body with
        | inl err => (users, inl (mkHTTPException 500 err))
        | inr google_user =>
            match g_email google_user with
            | None => (users, inl (mkHTTPException 500 "'email'"))
            | Some email =>
                match Users.find_by_email email users with
                | None =>
                    let user :=
                      mkUser (auth_uuid4 env)
                        (get_or_empty (g_name google_user)) email
                        (get_or_empty (g_picture google_user))
                        (auth_now1 env) (auth_now2 env) in
                    (Users.insert_one user users,
                     inr (auth_response env user))
                | Some user =>
                    (Users.update_by_id (u_id user)
                       (Users.set_last_active (auth_now1 env)) users,
                     inr (auth_response env user))
                end
            end
        end
  end.

(** [update_user_profile(name, current_user)].  [none_error] is the
    message of the [TypeError] raised when [find_one] answers [None] and
    the handler unpacks it into a [UserProfile]. *)
Definition update_user_profile (none_error : string)
  (users : Users.collection) (name : option string) (current_user : User)
  : Users.collection * (HTTPException + User) :=
  let users' :=
    match name with
    | Some n =>
        if Py.truthy (Some n)
        then Users.update_by_id (u_id current_user) (Users.set_name n) users
        else users
    | None => users
    end in
  match Users.find_by_id (u_id current_user) users' with
  | Some updated_user => (users', inr updated_user)
  | None => (users', inl (mkHTTPException 500 none_error))
  end.

(** ** Activities: POST /activity, GET /activity, GET /activity/stats *)

(** Python numbers as the handlers use them for distances: the [int] 0
    that [sum] and the per-type totals start from, [+], and
    [round(x, 2)].  Floating-point addition is kept abstract. *)
Record PyNumber := mkPyNumber {
  num : Type;
  num_zero : num;
  num_add : num -> num -> num;
  num_round2 : num -> num
}.

(** A document of the [activities] collection; [a_distance] is [None]
    when the activity was logged without a distance. *)
Record Activity (N : PyNumber) := mkActivity {
  a_id : string;
  a_user_id : string;
  a_type : string;
  a_duration : Z;
  a_distance : option (num N);
  a_date : datetime;
  a_notes : option string
}.

Arguments mkActivity {N}.
Arguments a_id {N}.
Arguments a_user_id {N}.
Arguments a_type {N}.
Arguments a_duration {N}.
Arguments a_distance {N}.
Arguments a_date {N}.
Arguments a_notes {N}.

Record ActivityCreate (N : PyNumber) := mkActivityCreate {
  c_type : string;
  c_duration : Z;
  c_distance : option (num N);
  c_notes : option string
}.

Arguments mkActivityCreate {N}.
Arguments c_type {N}.
Arguments c_duration {N}.
Arguments c_distance {N}.
Arguments c_notes {N}.

(** Insertion into a list sorted by [key], largest first. *)
Fixpoint insert_desc_by {A : Type} (key : A -> Z) (x : A) (l : list A)
  : list A :=
  match l with
  | [] => [x]
  | y :: rest =>
      if (key y <=? key x)%Z then x :: l
      else y :: insert_desc_by key x rest
  end.

(** [.sort(field, -1)] on a cursor. *)
Fixpoint sort_desc_by {A : Type} (key : A -> Z) (l : list A) : list A :=
  match l with
  | [] => []
  | x :: rest => insert_desc_by key x (sort_desc_by key rest)
  end.

(** [create_activity]: the new document gets a fresh id and the current
    time, is inserted and returned. *)
Definition create_activity {N : PyNumber} (activities : list (Activity N))
  (activity : ActivityCreate N) (uid : string) (new_id : string)
  (now : datetime) : list (Activity N) * Activity N :=
  let activity_obj :=
    mkActivity new_id uid (c_type activity) (c_duration activity)
      (c_distance activity) now (c_notes activity) in
  (activities ++ [activity_obj], activity_obj).

Definition of_user {N : PyNumber} (uid : string) (a : Activity N) : bool :=
  String.eqb (a_user_id a) uid.

(** [get_activities] for a positive [limit] (the default is 50). *)
Definition get_activities {N : PyNumber} (activities : list (Activity N))
  (uid : string) (limit : nat) : list (Activity N) :=
  firstn limit (sort_desc_by a_date (filter (of_user uid) activities)).

(** [timedelta(days=n)] in microseconds. *)
Definition days (n : Z) : Z := (n * 86400000000)%Z.

(** [sum(xs)] over values that may be [None]: starting from 0, left to
    right; adding [None] raises. *)
Fixpoint sum_from {N : PyNumber} (acc : num N) (xs : list (option (num N)))
  : option (num N) :=
  match xs with
  | [] => Some acc
  | Some x :: rest => sum_from (num_add N acc x) rest
  | None :: _ => None
  end.

Record TypeStats (N : PyNumber) := mkTypeStats {
  ts_count : nat;
  ts_duration : Z;
  ts_distance : num N
}.

Arguments mkTypeStats {N}.
Arguments ts_count {N}.
Arguments ts_duration {N}.
Arguments ts_distance {N}.

(** [if activity_type not in by_type: by_type[activity_type] = {...}] *)
Fixpoint ensure_type {N : PyNumber} (ty : string)
  (by_type : list (string * TypeStats N)) : list (string * TypeStats N) :=
  match by_type with
  | [] => [(ty, mkTypeStats 0 0%Z (num_zero N))]
  | (k, st) :: rest =>
      if String.eqb k ty then by_type else (k, st) :: ensure_type ty rest
  end.

(** The three [+=] on the entry of [ty]. *)
Fixpoint add_to_type {N : PyNumber} (ty : string) (duration : Z)
  (distance : num N) (by_type : list (string * TypeStats N))
  : list (string * TypeStats N) :=
  match by_type with
  | [] => []
  | (k, st) :: rest =>
      if String.eqb k ty
      then (k, mkTypeStats (ts_count st + 1) (ts_duration st + duration)%Z
                 (num_add N (ts_distance st) distance)) :: rest
      else (k, st) :: add_to_type ty duration distance rest
  end.

(** The [for activity in activities] loop; a [None] distance raises. *)
Fixpoint count_by_type {N : PyNumber} (activities : list (Activity N))
  (by_type : list (string * TypeStats N))
  : option (list (string * TypeStats N)) :=
  match activities with
  | [] => Some by_type
  | a :: rest =>
      match a_distance a with
      | None => None
      | Some d =>
          count_by_type rest
            (add_to_type (a_type a) (a_duration a) d
               (ensure_type (a_type a) by_type))
      end
  end.

Record ActivityStats (N : PyNumber) := mkActivityStats {
  st_total_activities : nat;
  st_total_duration : Z;
  st_total_distance : num N;
  st_by_type : list (string * TypeStats N);
  st_period : string
}.

Arguments mkActivityStats {N}.
Arguments st_total_activities {N}.
Arguments st_total_duration {N}.
Arguments st_total_distance {N}.
Arguments st_by_type {N}.
Arguments st_period {N}.

(** The activities the statistics are computed from: the user's, dated
    within the last 7 days, at most 1000 of them. *)
Definition recent_activities {N : PyNumber} (activities : list (Activity N))
  (uid : string) (now : datetime) : list (Activity N) :=
  firstn 1000
    (filter (fun a => of_user uid a && (now - days 7 <=? a_date a)%Z)
       activities).

(** [get_activity_stats].  [add_error] is the message of the [TypeError]
    raised by adding [None]. *)
Definition get_activity_stats {N : PyNumber} (add_error : string)
  (activities : list (Activity N)) (uid : string) (now : datetime)
  : HTTPException + ActivityStats N :=
  let recent := recent_activities activities uid now in
  let total_duration := fold_left Z.add (map a_duration recent) 0%Z in
  match sum_from (num_zero N) (map a_distance recent) with
  | None => inl (mkHTTPException 500 add_error)
  | Some total_distance =>
      match count_by_type recent [] with
      | None => inl (mkHTTPException 500 add_error)
      | Some by_type =>
          inr (mkActivityStats (length recent) total_duration
                 (num_round2 N total_distance) by_type "last_7_days")
      end
  end.

(** ** GET /user/health-summary *)

Record LastChat := mkLastChat {
  lc_content : string;
  lc_timestamp : datetime
}.

Record HealthSummary (N : PyNumber) := mkHealthSummary {
  hs_last_activity : option (Activity N);
  hs_last_chat : option LastChat;
  hs_total_activities : nat;
  hs_total_chats : nat
}.

Arguments mkHealthSummary {N}.
Arguments hs_last_activity {N}.
Arguments hs_last_chat {N}.
Arguments hs_total_activities {N}.
Arguments hs_total_chats {N}.

(** [c[:100] + "..." if len(c) > 100 else c] *)
Definition summary_preview (c : string) : string :=
  if (100 <? String.length c)%nat then Py.str_take 100 c ++ "..." else c.

Definition get_health_summary {N : PyNumber} (activities : list (Activity N))
  (chats : Chats.collection) (uid : string) : HealthSummary N :=
  let latest_activity :=
    hd_error (sort_desc_by a_date (filter (of_user uid) activities)) in
  let latest_chat :=
    hd_error (Chats.sort_created_desc (Chats.find_user uid chats)) in
  let last_chat_message :=
    match latest_chat with
    | Some chat =>
        match Py.last_or_none (messages chat) with
        | Some last_msg =>
            Some (mkLastChat (summary_preview (content last_msg))
                    (timestamp last_msg))
        | None => None
        end
    | None => None
    end in
  mkHealthSummary latest_activity last_chat_message
    (length (filter (of_user uid) activities))
    (length (Chats.find_user uid chats)).

(** ** GET /weather: the handler around the advisory *)

(** [data["current"]] with the fields the handler reads. *)
Record Current := mkCurrent {
  cur_temp_c : Q;
  cur_condition_text : string;
  cur_condition_icon : string;
  cur_feelslike_c : Q;
  cur_humidity : Z
}.

(** What the request to the weather provider does: it raises (so does
    the lookup of the API key before it), or it answers with a status
    code and a body that decodes to the expected fields or not. *)
Inductive Provider :=
| ProviderRaised (err : string)
| ProviderAnswered (status : nat) (body : string + Current).

Record WeatherResponse := mkWeatherResponse {
  w_condition : string;
  w_temperature : Q;
  w_feels_like : Q;
  w_humidity : Z;
  w_alert_message : string;
  w_icon : string
}.

(** [get_weather]; [str_of] is [str(e)] on an [HTTPException]. *)
Definition get_weather (str_of : HTTPException -> string) (p : Provider)
  : HTTPException + WeatherResponse :=
  match p with
  | ProviderRaised err => inl (mkHTTPException 500 err)
  | ProviderAnswered status body =>
      if negb (status =? 200)%nat then
        inl (mkHTTPException 500
               (str_of (mkHTTPException 400 "Unable to fetch weather data")))
      else
        match body with
        | inl err => inl (mkHTTPException 500 err)
        | inr current =>
            inr (mkWeatherResponse (cur_condition_text current)
                   (cur_temp_c current) (cur_feelslike_c current)
                   (cur_humidity current)
                   (Weather.alert_message (cur_temp_c current)
                      (cur_condition_text current))
                   (cur_condition_icon current))
        end
  end.

(** ** Keys of the chats collection *)

(** The pair a chat document is looked up by. *)
Definition doc_key (d : ChatDoc) : string * string :=
  (session_id d, user_id d).

(** ** More sample data *)

(** Distances that are whole numbers: on them [+] is exact and
    [round(x, 2)] changes nothing. *)
Definition WholeNumbers : PyNumber := mkPyNumber Z 0%Z Z.add (fun z => z).

Definition sample_activities : list (Activity WholeNumbers) :=
  [ mkActivity (N := WholeNumbers) "a1" "alice" "walk" 30 (Some 2%Z) 1000 None;
    mkActivity (N := WholeNumbers) "a2" "bob" "run" 20 (Some 4%Z) 2000 None;
    mkActivity (N := WholeNumbers) "a3" "alice" "run" 25 (Some 5%Z) 3000 (Some "morning");
    mkActivity (N := WholeNumbers) "a4" "alice" "walk" 10 (Some 1%Z) 4000 None ].

Definition sample_users : Users.collection :=
  [ mkUser "u1" "Alice" "alice@example.org" "" 10 20;
    mkUser "u2" "Bob" "bob@example.org" "pic" 11 21 ].

Definition sample_auth_env (email : string) (t : Z) : AuthEnv :=
  mkAuthEnv
    (TokenInfoAnswered 200
       (inr (mkGoogleUser (Some email) (Some "Carol") None)))
    "u-new" t (t + 1) (t + 2)
    (fun sub exp => ("token-for-" ++ sub)%string)
    (fun e => detail e).

Definition five_messages : list Message :=
  [ mkMessage "assistant" "a1" 2; mkMessage "user" "u2" 3;
    mkMessage "assistant" "a2" 4; mkMessage "user" "u3" 5;
    mkMessage "assistant" "a3" 6 ].

(** ** Totals over the per-type statistics *)

Definition zsum (l : list Z) : Z := fold_right Z.add 0%Z l.

Definition total_count {N : PyNumber} (by_type : list (string * TypeStats N))
  : nat :=
  fold_right (fun p acc => ts_count (snd p) + acc) 0 by_type.

Definition total_duration {N : PyNumber}
  (by_type : list (string * TypeStats N)) : Z :=
  zsum (map (fun p => ts_duration (snd p)) by_type).

(** Largest key first: [a] may stand before [b]. *)
Definition desc_by {A : Type} (key : A -> Z) (a b : A) : Prop :=
  (key b <= key a)%Z.

(** A user with 22 sessions, created at times 0 to 21. *)
Definition many_sessions : Chats.collection :=
  map (fun n => mkChatDoc (String (ascii_of_nat (65 + n)) "") "alice" []
                  (Z.of_nat n))
      (seq 0 22).

(** * Properties *)

(** ** Comparisons on temperatures *)

Lemma Qltb_spec (x y : Q) : Weather.Qltb x y = true <-> (x < y)%Q.
Proof. unfold Weather.Qltb, Qlt. apply Z.ltb_lt. Qed.

Lemma Qltb_false (x y : Q) : Weather.Qltb x y = false <-> (y <= x)%Q.
Proof. unfold Weather.Qltb, Qle. rewrite Z.ltb_ge. reflexivity. Qed.

(** ** Weather advisory *)

(** C7: the advisory is the text of the first branch that holds, the
    branches being tested in the order >30, >25, <10, <0, condition
    contains "rain" (in any letter case), else the default; every
    temperature above 30, and 32 in particular, gets the hot-weather text
    whatever the condition. *)
Theorem alert_message_first_match :
  (forall t c,
      Weather.alert_message t c
      = Weather.first_match Weather.advisory_table Weather.default_text t c)
  /\ (forall t c, (30 < t)%Q -> Weather.alert_message t c = Weather.hot_text)
  /\ (forall c, Weather.alert_message 32 c = Weather.hot_text).
Proof.
  split; [| split].
  - intros t c. unfold Weather.alert_message. simpl.
    repeat match goal with |- context [if ?b then _ else _] =>
      destruct b; try reflexivity end.
  - intros t c H. unfold Weather.alert_message.
    apply Qltb_spec in H. rewrite H. reflexivity.
  - intros c. reflexivity.
Qed.

Lemma alert_message_first_match_witness :
  (30 < 32)%Q
  /\ Weather.alert_message 32 "Sunny" = Weather.hot_text.
Proof.
  split.
  - reflexivity.
  - apply (proj1 (proj2 alert_message_first_match) 32%Q "Sunny").
    reflexivity.
Defined.

(** C10: below 0 degrees the advisory is the cold-weather text of the <10
    branch and never the freezing text: the <0 test comes after the <10
    test and no temperature reaches it. *)
Theorem alert_message_below_zero :
  forall t c, (t < 0)%Q ->
    Weather.alert_message t c = Weather.cold_text
    /\ Weather.alert_message t c <> Weather.freezing_text.
Proof.
  intros t c H.
  assert (E : Weather.alert_message t c = Weather.cold_text).
  { unfold Weather.alert_message.
    assert (H30 : Weather.Qltb 30 t = false).
    { apply Qltb_false. apply Qlt_le_weak.
      apply Qlt_trans with (y := 0%Q); [exact H | reflexivity]. }
    assert (H25 : Weather.Qltb 25 t = false).
    { apply Qltb_false. apply Qlt_le_weak.
      apply Qlt_trans with (y := 0%Q); [exact H | reflexivity]. }
    assert (H10 : Weather.Qltb t 10 = true).
    { apply Qltb_spec.
      apply Qlt_trans with (y := 0%Q); [exact H | reflexivity]. }
    rewrite H30, H25, H10. reflexivity. }
  split; [exact E |].
  rewrite E. discriminate.
Qed.

Lemma alert_message_below_zero_witness :
  (-5 < 0)%Q
  /\ Weather.alert_message (-5) "Snow" = Weather.cold_text
  /\ Weather.alert_message (-5) "Snow" <> Weather.freezing_text.
Proof.
  split; [reflexivity |].
  apply (alert_message_below_zero (-5) "Snow"). reflexivity.
Defined.

(** ** Listing the sessions of a user *)

Section SessionList.

Lemma insert_desc_length d l :
  length (Chats.insert_desc d l) = S (length l).
Proof.
  induction l as [| e rest IH]; simpl; [reflexivity |].
  destruct (created_at e <=? created_at d)%Z; simpl; [reflexivity |].
  now rewrite IH.
Qed.

Lemma insert_desc_In d l x :
  In x (Chats.insert_desc d l) <-> x = d \/ In x l.
Proof.
  induction l as [| e rest IH]; simpl.
  - intuition congruence.
  - destruct (created_at e <=? created_at d)%Z; simpl.
    + intuition congruence.
    + rewrite IH. intuition congruence.
Qed.

Lemma insert_desc_sorted d l :
  StronglySorted newer_first l ->
  StronglySorted newer_first (Chats.insert_desc d l).
Proof.
  induction 1 as [| e rest Hs IH Hall]; simpl.
  - constructor; [constructor | constructor].
  - destruct (created_at e <=? created_at d)%Z eqn:E.
    + apply Z.leb_le in E.
      constructor; [constructor; assumption |].
      constructor; [exact E |].
      eapply Forall_impl; [| exact Hall].
      intros b Hb. unfold newer_first in *. lia.
    + apply Z.leb_gt in E.
      constructor; [exact IH |].
      apply Forall_forall. intros x Hx.
      apply insert_desc_In in Hx. destruct Hx as [-> | Hx].
      * unfold newer_first. lia.
      * rewrite Forall_forall in Hall. now apply Hall.
Qed.

Lemma sort_created_desc_sorted l :
  StronglySorted newer_first (Chats.sort_created_desc l).
Proof.
  induction l as [| d rest IH]; simpl.
  - constructor.
  - now apply insert_desc_sorted.
Qed.

Lemma sort_created_desc_length l :
  length (Chats.sort_created_desc l) = length l.
Proof.
  induction l as [| d rest IH]; simpl; [reflexivity |].
  now rewrite insert_desc_length, IH.
Qed.

Lemma sort_created_desc_In l x :
  In x (Chats.sort_created_desc l) <-> In x l.
Proof.
  induction l as [| d rest IH]; simpl; [reflexivity |].
  rewrite insert_desc_In, IH. intuition congruence.
Qed.

Lemma firstn_In (A : Type) n (l : list A) x :
  In x (firstn n l) -> In x l.
Proof.
  intros H. rewrite <- (firstn_skipn n l).
  apply in_or_app. now left.
Qed.

Lemma firstn_sorted (R : ChatDoc -> ChatDoc -> Prop) n l :
  StronglySorted R l -> StronglySorted R (firstn n l).
Proof.
  intros H. revert n.
  induction H as [| e rest Hs IH Hall]; intros [| n]; simpl;
    try constructor.
  - apply IH.
  - rewrite Forall_forall in *. intros x Hx.
    apply Hall. eapply firstn_In. exact Hx.
Qed.

Lemma listed_chats_In db uid chat :
  In chat (listed_chats db uid) -> In chat db /\ user_id chat = uid.
Proof.
  unfold listed_chats, Chats.find_user. intros H.
  apply firstn_In in H.
  apply (proj1 (sort_created_desc_In _ _)) in H.
  apply filter_In in H. destruct H as [Hin Hu].
  split; [exact Hin |]. now apply String.eqb_eq.
Qed.

Lemma map_sorted (l : list ChatDoc) :
  StronglySorted newer_first l ->
  StronglySorted
    (fun a b => (sum_created_at b <= sum_created_at a)%Z)
    (map summarize l).
Proof.
  induction 1 as [| e rest Hs IH Hall]; simpl; constructor.
  - exact IH.
  - rewrite Forall_forall in *. intros s Hs'.
    apply in_map_iff in Hs'. destruct Hs' as [c [<- Hc]].
    simpl. now apply Hall.
Qed.

End SessionList.

(** C8: the session list of a user never has more than 20 entries (it has
    20, or all of the user's sessions when there are fewer), and it is
    ordered by creation time, newest first. *)
Theorem get_chat_sessions_bounded_sorted :
  forall db uid,
    length (get_chat_sessions db uid) <= 20
    /\ length (get_chat_sessions db uid)
       = Nat.min 20 (length (Chats.find_user uid db))
    /\ StronglySorted
         (fun a b => (sum_created_at b <= sum_created_at a)%Z)
         (get_chat_sessions db uid).
Proof.
  intros db uid. unfold get_chat_sessions.
  assert (L : length (map summarize (listed_chats db uid))
              = Nat.min 20 (length (Chats.find_user uid db))).
  { rewrite length_map. unfold listed_chats, sessions_limit.
    rewrite length_firstn, sort_created_desc_length. reflexivity. }
  split; [rewrite L; apply Nat.le_min_l |].
  split; [exact L |].
  apply map_sorted. unfold listed_chats.
  apply firstn_sorted, sort_created_desc_sorted.
Qed.

(** ** Session summaries *)

Lemma last_or_none_rev (A : Type) (l : list A) :
  Py.last_or_none l = hd_error (rev l).
Proof.
  destruct l as [| a l'] using rev_ind; [reflexivity |].
  rewrite rev_app_distr. simpl.
  unfold Py.last_or_none.
  destruct (l' ++ [a]) eqn:E.
  - destruct l'; discriminate.
  - rewrite <- E. rewrite length_app. simpl.
    replace (length l' + 1 - 1) with (length l') by lia.
    rewrite nth_error_app2 by lia.
    now rewrite Nat.sub_diag.
Qed.

Lemma str_take_prefix n s :
  exists rest, s = (Py.str_take n s ++ rest)%string
               /\ String.length (Py.str_take n s) = Nat.min n (String.length s).
Proof.
  unfold Py.str_take. revert s.
  induction n as [| n IH]; intros s.
  - exists s. destruct s; simpl; split; reflexivity.
  - destruct s as [| c s']; simpl.
    + exists "". split; reflexivity.
    + destruct (IH s') as [rest [E L]].
      exists rest. split; [now rewrite <- E | now rewrite L].
Qed.

(** C9: every listed summary belongs to a session of the user and carries
    its number of messages; the preview is empty for a session without
    messages, and otherwise the first 50 characters of the last message's
    content (all of it when shorter) followed by three dots. *)
Theorem session_summary_preview :
  forall db uid s,
    In s (get_chat_sessions db uid) ->
    exists chat,
      In chat db /\ user_id chat = uid
      /\ sum_session_id s = session_id chat
      /\ sum_created_at s = created_at chat
      /\ message_count s = length (messages chat)
      /\ match rev (messages chat) with
         | [] => last_message s = ""
         | m :: _ =>
             exists shown dropped,
               content m = (shown ++ dropped)%string
               /\ String.length shown = Nat.min 50 (String.length (content m))
               /\ last_message s = (shown ++ "...")%string
         end.
Proof.
  intros db uid s H. unfold get_chat_sessions in H.
  apply in_map_iff in H. destruct H as [chat [<- Hc]].
  apply listed_chats_In in Hc. destruct Hc as [Hin Hu].
  exists chat. repeat (split; [first [assumption | reflexivity] |]).
  unfold summarize; simpl. rewrite last_or_none_rev.
  destruct (rev (messages chat)) as [| m ms]; simpl; [reflexivity |].
  destruct (str_take_prefix 50 (content m)) as [rest [E L]].
  exists (Py.str_take 50 (content m)), rest. auto.
Qed.

Lemma session_summary_preview_witness :
  In (mkSessionSummary "s1" 5
        "I have had a pounding headache since yesterday mor..." 2)
     (get_chat_sessions sample_sessions "alice")
  /\ exists chat,
    In chat sample_sessions /\ user_id chat = "alice"
    /\ "s1" = session_id chat
    /\ 5%Z = created_at chat
    /\ 2 = length (messages chat)
    /\ match rev (messages chat) with
       | [] => "I have had a pounding headache since yesterday mor..." = ""
       | m :: _ =>
           exists shown dropped,
             content m = (shown ++ dropped)%string
             /\ String.length shown = Nat.min 50 (String.length (content m))
             /\ "I have had a pounding headache since yesterday mor..."
                = (shown ++ "...")%string
       end.
Proof.
  assert (H : In (mkSessionSummary "s1" 5
                    "I have had a pounding headache since yesterday mor..." 2)
                 (get_chat_sessions sample_sessions "alice")).
  { simpl. right. left. reflexivity. }
  split; [exact H |].
  exact (session_summary_preview sample_sessions "alice" _ H).
Defined.

(** ** The context window of a turn *)

Lemma slice_last_split (A : Type) (n : nat) (l : list A) :
  l = firstn (length l - n) l ++ Py.slice_last n l
  /\ length (Py.slice_last n l) = Nat.min n (length l).
Proof.
  unfold Py.slice_last. split.
  - symmetry. apply firstn_skipn.
  - rewrite length_skipn. lia.
Qed.

Lemma slice_last_snoc (A : Type) (l : list A) (x : A) :
  exists earlier, Py.slice_last 6 (l ++ [x]) = earlier ++ [x].
Proof.
  unfold Py.slice_last. rewrite length_app. simpl.
  exists (skipn (length l + 1 - 6) l).
  rewrite skipn_app.
  replace (length l + 1 - 6 - length l) with 0 by lia.
  reflexivity.
Qed.

(** The handler, read off as a function of the client's answer to the one
    prompt it sends. *)
Lemma symptom_check_unfold db uid request env :
  symptom_check db uid request env =
  match generate_content env
          (turn_prompt (turn_read db uid request env) request env) with
  | CompletionFailed e =>
      (db, inl (mkHTTPException 500 ("Error processing symptom check: " ++ e)))
  | Completed r =>
      (Chats.update_one (resolve_session_id request env) uid
         (append_message
            (append_message (turn_read db uid request env)
               (user_message request env))
            (ai_message r env))
         db,
       inr (mkChatResponse r (extract_symptom (req_message request)) []
              static_advice (resolve_session_id request env)))
  end.
Proof.
  unfold symptom_check, turn_work, turn_commit, turn_prompt.
  destruct (generate_content env _); reflexivity.
Qed.

(** C3: whatever the session holds, the text handed to the completion
    client is the system prompt followed by the lines "role: content" of a
    window that is the tail of the in-memory sequence (stored messages plus
    the user message just appended), in order, of length 6, or of the whole
    sequence when it is shorter, and it ends with the user message of the
    turn; the client is consulted on that prompt only. *)
Theorem context_window_last_six :
  forall db uid request env,
    let chat_doc := turn_read db uid request env in
    let in_memory := messages chat_doc ++ [user_message request env] in
    (exists dropped window,
        in_memory = dropped ++ window
        /\ length window = Nat.min 6 (length in_memory)
        /\ length window <= 6
        /\ (exists earlier, window = earlier ++ [user_message request env])
        /\ turn_prompt chat_doc request env
           = (system_prompt ++ Py.nl ++ Py.nl ++ "Conversation:" ++ Py.nl
              ++ String.concat Py.nl
                   (map (fun m => role m ++ ": " ++ content m) window))%string)
    /\ symptom_check db uid request env
       = symptom_check db uid request
           (with_client env
              (fun _ => generate_content env (turn_prompt chat_doc request env))).
Proof.
  intros db uid request env chat_doc in_memory. split.
  - exists (firstn (length in_memory - 6) in_memory),
           (Py.slice_last 6 in_memory).
    destruct (slice_last_split _ 6 in_memory) as [E L].
    split; [exact E |]. split; [exact L |]. split; [lia |].
    split; [apply slice_last_snoc | reflexivity].
  - rewrite !symptom_check_unfold. reflexivity.
Qed.

(** ** Topic extraction *)

Lemma scan_keywords_first before kw after s :
  Py.contains kw s = true ->
  (forall k, In k before -> Py.contains k s = false) ->
  scan_keywords (before ++ kw :: after) s = Some (Py.capitalize kw).
Proof.
  intros Hkw. induction before as [| b rest IH]; intros Hno; simpl.
  - now rewrite Hkw.
  - rewrite (Hno b) by now left.
    apply IH. intros k Hk. apply Hno. now right.
Qed.

Lemma scan_keywords_none keywords s :
  (forall k, In k keywords -> Py.contains k s = false) ->
  scan_keywords keywords s = None.
Proof.
  induction keywords as [| k rest IH]; intros Hno; simpl; [reflexivity |].
  rewrite (Hno k) by now left.
  apply IH. intros k' Hk'. apply Hno. now right.
Qed.

(** [Py.contains] is the substring relation. *)
Lemma prefix_app sub s :
  String.prefix sub s = true <-> exists post, s = (sub ++ post)%string.
Proof.
  revert s. induction sub as [| c sub IH]; intros s.
  - split; [intros _; exists s; reflexivity | intros _; destruct s; reflexivity].
  - destruct s as [| d s']; simpl.
    + split; [discriminate | intros [post E]; discriminate].
    + destruct (Ascii.ascii_dec c d) as [-> | N].
      * rewrite IH. split; intros [post E]; exists post.
        -- now rewrite E.
        -- now inversion E.
      * split; [discriminate |].
        intros [post E]. inversion E. congruence.
Qed.

Lemma contains_spec sub s :
  Py.contains sub s = true
  <-> exists pre post, s = (pre ++ sub ++ post)%string.
Proof.
  induction s as [| c s' IH].
  - change (Py.contains sub "") with (String.prefix sub "" || false).
    rewrite orb_false_r. rewrite prefix_app. split.
    + intros [post E]. exists "", post. exact E.
    + intros [pre [post E]]. destruct pre; [now exists post | discriminate].
  - change (Py.contains sub (String c s'))
      with (String.prefix sub (String c s') || Py.contains sub s').
    rewrite orb_true_iff, prefix_app, IH. split.
    + intros [[post E] | [pre [post E]]].
      * exists "", post. exact E.
      * exists (String c pre), post. simpl. now rewrite E.
    + intros [pre [post E]]. destruct pre as [| d pre].
      * left. now exists post.
      * right. exists pre, post. simpl in E. now inversion E.
Qed.

(** C4 as stated fails: a message with "fever" and "pain" that also has
    "headache" is tagged [Headache], not [Fever]. *)
Lemma fever_and_pain_not_always_fever :
  ~ (forall m,
        Py.contains "fever" (Py.lower m) = true ->
        Py.contains "pain" (Py.lower m) = true ->
        extract_symptom m = Some "Fever").
Proof.
  intros H.
  specialize (H "Headache, fever and pain since Monday" eq_refl eq_refl).
  vm_compute in H. discriminate H.
Qed.

(** C4 (amended): the topic is a function of the lower-cased message; the
    first keyword of the fixed list (headache, fever, cough, pain, tired,
    nausea, dizzy) that occurs in it becomes the topic, capitalised; with
    none the topic is unset; a message with "fever" and "pain" and without
    "headache" gives [Fever], and no message with "fever" gives [Pain]. *)
Theorem extract_symptom_priority :
  map Py.capitalize symptom_keywords
  = ["Headache"; "Fever"; "Cough"; "Pain"; "Tired"; "Nausea"; "Dizzy"]
  /\ forall m,
      (forall before kw after,
          symptom_keywords = before ++ kw :: after ->
          Py.contains kw (Py.lower m) = true ->
          (forall k, In k before -> Py.contains k (Py.lower m) = false) ->
          extract_symptom m = Some (Py.capitalize kw))
      /\ ((forall k, In k symptom_keywords ->
                     Py.contains k (Py.lower m) = false) ->
          extract_symptom m = None)
      /\ (Py.contains "fever" (Py.lower m) = true ->
          Py.contains "pain" (Py.lower m) = true ->
          Py.contains "headache" (Py.lower m) = false ->
          extract_symptom m = Some "Fever")
      /\ (Py.contains "fever" (Py.lower m) = true ->
          extract_symptom m <> Some "Pain")
      /\ (forall m', Py.lower m' = Py.lower m ->
                     extract_symptom m' = extract_symptom m).
Proof.
  split; [reflexivity |]. intros m.
  split; [| split; [| split; [| split]]].
  - intros before kw after E Hkw Hno.
    unfold extract_symptom. rewrite E.
    now apply scan_keywords_first.
  - intros Hno. now apply scan_keywords_none.
  - intros Hf _ Hh. unfold extract_symptom, symptom_keywords. simpl.
    now rewrite Hh, Hf.
  - intros Hf. unfold extract_symptom, symptom_keywords. simpl.
    destruct (Py.contains "headache" (Py.lower m)); [discriminate |].
    rewrite Hf. discriminate.
  - intros m' E. unfold extract_symptom. now rewrite E.
Qed.

Lemma extract_symptom_priority_witness :
  Py.contains "fever" (Py.lower "My FEVER came with chest pain") = true
  /\ Py.contains "pain" (Py.lower "My FEVER came with chest pain") = true
  /\ Py.contains "headache" (Py.lower "My FEVER came with chest pain") = false
  /\ extract_symptom "My FEVER came with chest pain" = Some "Fever"
  /\ extract_symptom "My FEVER came with chest pain" <> Some "Pain"
  /\ extract_symptom "I feel Dizzy" = Some "Dizzy"
  /\ extract_symptom "I sleep badly" = None
  /\ extract_symptom "MY fever CAME WITH CHEST PAIN"
     = extract_symptom "My FEVER came with chest pain".
Proof.
  pose proof (proj2 extract_symptom_priority) as P.
  destruct (P "My FEVER came with chest pain") as (_ & _ & Hfp & Hnp & Hci).
  destruct (P "I feel Dizzy") as (Hfirst & _).
  destruct (P "I sleep badly") as (_ & Hnone & _).
  do 3 (split; [reflexivity |]).
  split; [apply Hfp; reflexivity |].
  split; [apply Hnp; reflexivity |].
  split.
  - apply (Hfirst ["headache"; "fever"; "cough"; "pain"; "tired"; "nausea"]
             "dizzy" []); [reflexivity | reflexivity |].
    intros k Hk. simpl in Hk.
    repeat (destruct Hk as [<- | Hk]; [reflexivity |]). destruct Hk.
  - split.
    + apply Hnone. intros k Hk. simpl in Hk.
      repeat (destruct Hk as [<- | Hk]; [reflexivity |]). destruct Hk.
    + apply Hci. reflexivity.
Defined.

(** ** The chats collection under [find_one] and [update_one] *)

Section ChatStore.

Variables sid uid : string.

Lemma matches_key d :
  Chats.matches sid uid d = true <-> session_id d = sid /\ user_id d = uid.
Proof.
  unfold Chats.matches.
  rewrite andb_true_iff, !String.eqb_eq. reflexivity.
Qed.

Lemma matches_other d sid' uid' :
  Chats.matches sid uid d = true ->
  (sid', uid') <> (sid, uid) ->
  Chats.matches sid' uid' d = false.
Proof.
  intros H N. apply matches_key in H. destruct H as [Hs Hu].
  destruct (Chats.matches sid' uid' d) eqn:E; [| reflexivity].
  unfold Chats.matches in E. apply andb_true_iff in E.
  rewrite !String.eqb_eq in E. destruct E as [Es Eu].
  exfalso. apply N. congruence.
Qed.

Lemma find_one_matches db d :
  Chats.find_one sid uid db = Some d -> Chats.matches sid uid d = true.
Proof.
  unfold Chats.find_one. intros H.
  apply find_some in H. tauto.
Qed.

(** Last writer wins: after the write, the stored document is the one
    written, whatever was stored before. *)
Lemma find_one_update_same doc db :
  Chats.matches sid uid doc = true ->
  Chats.find_one sid uid (Chats.update_one sid uid doc db) = Some doc.
Proof.
  intros Hdoc. unfold Chats.find_one.
  induction db as [| d rest IH]; simpl.
  - now rewrite Hdoc.
  - destruct (Chats.matches sid uid d) eqn:E; simpl.
    + now rewrite Hdoc.
    + now rewrite E.
Qed.

Lemma find_one_update_other doc db sid' uid' :
  Chats.matches sid uid doc = true ->
  (sid', uid') <> (sid, uid) ->
  Chats.find_one sid' uid' (Chats.update_one sid uid doc db)
  = Chats.find_one sid' uid' db.
Proof.
  intros Hdoc N. unfold Chats.find_one.
  induction db as [| d rest IH]; simpl.
  - now rewrite (matches_other doc sid' uid' Hdoc N).
  - destruct (Chats.matches sid uid d) eqn:E; simpl.
    + now rewrite (matches_other doc sid' uid' Hdoc N),
        (matches_other d sid' uid' E N).
    + now rewrite IH.
Qed.

Lemma load_chat_doc_key db env :
  Chats.matches sid uid (load_chat_doc db sid uid env) = true.
Proof.
  unfold load_chat_doc.
  destruct (Chats.find_one sid uid db) as [d |] eqn:E.
  - now apply find_one_matches with (db := db).
  - apply matches_key. split; reflexivity.
Qed.

Lemma load_chat_doc_messages db env :
  messages (load_chat_doc db sid uid env) = get_chat_history db sid uid.
Proof.
  unfold load_chat_doc, get_chat_history.
  now destruct (Chats.find_one sid uid db).
Qed.

Lemma append_message_key d m :
  Chats.matches sid uid (append_message d m) = Chats.matches sid uid d.
Proof. reflexivity. Qed.

End ChatStore.

(** ** One turn *)

(** A turn whose completion call answers [r]: the response carries [r] and
    the session identifier, the session's stored sequence grows by the user
    message and the reply, and no other session changes. *)
Lemma symptom_check_success db uid request env r :
  generate_content env
    (turn_prompt (turn_read db uid request env) request env) = Completed r ->
  let sid := resolve_session_id request env in
  let db' := fst (symptom_check db uid request env) in
  snd (symptom_check db uid request env)
  = inr (mkChatResponse r (extract_symptom (req_message request)) []
           static_advice sid)
  /\ get_chat_history db' sid uid
     = get_chat_history db sid uid
       ++ [user_message request env; ai_message r env]
  /\ forall sid' uid', (sid', uid') <> (sid, uid) ->
       get_chat_history db' sid' uid' = get_chat_history db sid' uid'.
Proof.
  intros H sid db'. subst db'.
  rewrite symptom_check_unfold, H. simpl.
  set (doc := append_message _ _).
  assert (K : Chats.matches sid uid doc = true).
  { subst doc. rewrite !append_message_key. apply load_chat_doc_key. }
  split; [reflexivity |]. split.
  - unfold get_chat_history at 1.
    fold sid. rewrite (find_one_update_same _ _ _ _ K).
    subst doc. simpl. unfold turn_read. fold sid.
    rewrite load_chat_doc_messages, <- app_assoc. reflexivity.
  - intros sid' uid' N. unfold get_chat_history.
    fold sid. now rewrite (find_one_update_other _ _ _ _ _ _ K N).
Qed.

Lemma symptom_check_failure db uid request env err :
  generate_content env
    (turn_prompt (turn_read db uid request env) request env)
  = CompletionFailed err ->
  symptom_check db uid request env
  = (db, inl (mkHTTPException 500
                ("Error processing symptom check: " ++ err))).
Proof.
  intros H. now rewrite symptom_check_unfold, H.
Qed.

(** C2: when the completion call of a turn fails, the handler answers with
    an error and the collection is left as it was; in particular the
    session's stored sequence is the one from before the turn and the user
    message of the turn is not added to it. *)
Theorem failed_completion_persists_nothing :
  forall db uid request env err,
    generate_content env
      (turn_prompt (turn_read db uid request env) request env)
    = CompletionFailed err ->
    fst (symptom_check db uid request env) = db
    /\ (exists e, snd (symptom_check db uid request env) = inl e
                  /\ status_code e = 500)
    /\ get_chat_history (fst (symptom_check db uid request env))
         (resolve_session_id request env) uid
       = get_chat_history db (resolve_session_id request env) uid
    /\ length (get_chat_history (fst (symptom_check db uid request env))
                 (resolve_session_id request env) uid)
       = length (messages (turn_read db uid request env)).
Proof.
  intros db uid request env err H.
  rewrite (symptom_check_failure _ _ _ _ _ H). simpl.
  split; [reflexivity |].
  split; [eexists; split; reflexivity |].
  split; [reflexivity |].
  unfold turn_read. now rewrite load_chat_doc_messages.
Qed.

Lemma failed_completion_persists_nothing_witness :
  generate_content (env_down 20)
    (turn_prompt
       (turn_read sample_store "alice"
          (mkChatRequest "Now I have a fever" (Some "s1")) (env_down 20))
       (mkChatRequest "Now I have a fever" (Some "s1")) (env_down 20))
  = CompletionFailed "503 model overloaded"
  /\ fst (symptom_check sample_store "alice"
         (mkChatRequest "Now I have a fever" (Some "s1")) (env_down 20))
  = sample_store
  /\ get_chat_history
       (fst (symptom_check sample_store "alice"
               (mkChatRequest "Now I have a fever" (Some "s1")) (env_down 20)))
       "s1" "alice"
     = get_chat_history sample_store "s1" "alice".
Proof.
  destruct (failed_completion_persists_nothing sample_store "alice"
              (mkChatRequest "Now I have a fever" (Some "s1")) (env_down 20)
              "503 model overloaded" eq_refl) as (H1 & _ & H3 & _).
  split; [reflexivity |].
  split; [exact H1 | exact H3].
Defined.

(** ** Resolving the session of a turn *)





(** ** Sequences of turns *)

Lemma on_session_true sid uid t :
  on_session sid uid t = true ->
  resolve_session_id (turn_request t) (turn_env t) = sid /\ turn_user t = uid.
Proof.
  unfold on_session. rewrite andb_true_iff, !String.eqb_eq. tauto.
Qed.

Lemma on_session_false sid uid t :
  on_session sid uid t = false ->
  (sid, uid)
  <> (resolve_session_id (turn_request t) (turn_env t), turn_user t).
Proof.
  intros H E. inversion E; subst.
  unfold on_session in H. now rewrite !String.eqb_refl in H.
Qed.

(** One turn extends the history of a session by its exchange. *)
Lemma symptom_check_history sid uid db t :
  let out := symptom_check db (turn_user t) (turn_request t) (turn_env t) in
  get_chat_history (fst out) sid uid
  = get_chat_history db sid uid ++ exchange_of sid uid t (snd out).
Proof.
  intros out. subst out.
  destruct (generate_content (turn_env t)
              (turn_prompt
                 (turn_read db (turn_user t) (turn_request t) (turn_env t))
                 (turn_request t) (turn_env t))) as [r | err] eqn:G.
  - destruct (symptom_check_success _ _ _ _ _ G) as (A & B & C).
    rewrite A. simpl.
    destruct (on_session sid uid t) eqn:O.
    + apply on_session_true in O. destruct O as [<- <-]. exact B.
    + rewrite app_nil_r. apply C. now apply on_session_false.
  - rewrite (symptom_check_failure _ _ _ _ _ G). simpl.
    now rewrite app_nil_r.
Qed.

Lemma run_turns_cons db t rest :
  run_turns db (t :: rest)
  = (fst (run_turns
            (fst (symptom_check db (turn_user t) (turn_request t) (turn_env t)))
            rest),
     snd (symptom_check db (turn_user t) (turn_request t) (turn_env t))
     :: snd (run_turns
               (fst (symptom_check db (turn_user t) (turn_request t)
                       (turn_env t)))
               rest)).
Proof.
  simpl.
  destruct (symptom_check db (turn_user t) (turn_request t) (turn_env t))
    as [db1 r].
  simpl. now destruct (run_turns db1 rest).
Qed.

Lemma run_turns_history sid uid turns :
  forall db,
    get_chat_history (fst (run_turns db turns)) sid uid
    = get_chat_history db sid uid
      ++ exchanges sid uid turns (snd (run_turns db turns)).
Proof.
  induction turns as [| t rest IH]; intros db.
  - simpl. now rewrite app_nil_r.
  - rewrite run_turns_cons. simpl.
    rewrite IH, symptom_check_history, <- app_assoc. reflexivity.
Qed.

Lemma run_turns_length turns :
  forall db, length (snd (run_turns db turns)) = length turns.
Proof.
  induction turns as [| t rest IH]; intros db; [reflexivity |].
  rewrite run_turns_cons. simpl. now rewrite IH.
Qed.

Lemma exchanges_shape sid uid turns :
  forall rs,
    length (exchanges sid uid turns rs)
    = 2 * successful_turns sid uid turns rs
    /\ map role (exchanges sid uid turns rs)
       = alternating (successful_turns sid uid turns rs).
Proof.
  induction turns as [| t rest IH]; intros [| r rs]; simpl;
    try (split; reflexivity).
  destruct (IH rs) as [L M].
  rewrite length_app, map_app, L, M.
  destruct r as [e | resp]; simpl; [split; [lia | reflexivity] |].
  destruct (on_session sid uid t); simpl; split; try lia; reflexivity.
Qed.

(** C5: after any sequence of turns handled one after the other, the
    history of a session is what it was before followed by the exchanges
    of the successful turns on that session, in the order of the turns,
    each a user message then the assistant's reply; so for a session that
    had no record, the history after N successful turns has exactly 2N
    messages, with roles user, assistant, user, assistant, ... *)
Theorem history_after_turns :
  forall db turns sid uid,
    let db' := fst (run_turns db turns) in
    let results := snd (run_turns db turns) in
    let n := successful_turns sid uid turns results in
    length results = length turns
    /\ get_chat_history db' sid uid
       = get_chat_history db sid uid ++ exchanges sid uid turns results
    /\ (Chats.find_one sid uid db = None ->
        get_chat_history db' sid uid = exchanges sid uid turns results
        /\ length (get_chat_history db' sid uid) = 2 * n
        /\ map role (get_chat_history db' sid uid) = alternating n).
Proof.
  intros db turns sid uid db' results n. subst db' results n.
  split; [apply run_turns_length |].
  split; [apply run_turns_history |].
  intros Hnone.
  assert (E : get_chat_history (fst (run_turns db turns)) sid uid
              = exchanges sid uid turns (snd (run_turns db turns))).
  { rewrite run_turns_history. unfold get_chat_history at 1.
    now rewrite Hnone. }
  rewrite E. split; [reflexivity |].
  apply exchanges_shape.
Qed.

Lemma history_after_turns_witness :
  Chats.find_one "s7" "alice" sample_store = None
  /\ get_chat_history (fst (run_turns sample_store sample_turns)) "s7" "alice"
  = [ mkMessage "user" "I have a headache" 101;
      mkMessage "assistant" "Rest in a quiet room." 102;
      mkMessage "user" "Now also a fever" 401;
      mkMessage "assistant" "Keep hydrated and see a doctor." 402 ]
  /\ length
       (get_chat_history (fst (run_turns sample_store sample_turns))
          "s7" "alice")
     = 2 * 2.
Proof.
  destruct (history_after_turns sample_store sample_turns "s7" "alice")
    as (_ & _ & H).
  destruct (H eq_refl) as (E & L & _).
  split; [reflexivity |].
  split; [exact E | exact L].
Defined.

(** ** Two requests in flight on one event loop *)

(** Run without interleaving, a task is the handler. *)
Lemma step_task_loaded db uid request env :
  step_task db (Loaded uid request env (turn_read db uid request env))
  = (fst (symptom_check db uid request env),
     Finished (snd (symptom_check db uid request env))).
Proof.
  simpl. unfold symptom_check.
  destruct (turn_work (turn_read db uid request env) request env)
    as [e | [doc ai]]; reflexivity.
Qed.

Lemma run_schedule_sequential db u1 rq1 env1 u2 rq2 env2 :
  run_schedule [First; First; Second; Second] db
    (Waiting u1 rq1 env1) (Waiting u2 rq2 env2)
  = (fst (run_turns db [mkTurn u1 rq1 env1; mkTurn u2 rq2 env2]),
     Finished (snd (symptom_check db u1 rq1 env1)),
     Finished (snd (symptom_check (fst (symptom_check db u1 rq1 env1))
                      u2 rq2 env2))).
Proof.
  rewrite !run_turns_cons.
  cbn [run_turns fst turn_user turn_request turn_env].
  set (db1 := fst (symptom_check db u1 rq1 env1)).
  unfold run_schedule.
  change (step_task db (Waiting u1 rq1 env1))
    with (db, Loaded u1 rq1 env1 (turn_read db u1 rq1 env1)).
  cbv iota beta. rewrite step_task_loaded. fold db1.
  change (step_task db1 (Waiting u2 rq2 env2))
    with (db1, Loaded u2 rq2 env2 (turn_read db1 u2 rq2 env2)).
  cbv iota beta. rewrite step_task_loaded. reflexivity.
Qed.

(** C6: two turns on one session, both resumed after [find_one] before
    either writes, both succeed, and the stored sequence ends up with the
    exchange of the second writer only: the first turn's messages are
    gone although its caller got a reply.  Nothing in the write looks at
    what is stored: [update_one] leaves the written document in place
    whatever the collection held. *)
Theorem concurrent_turns_lose_update :
  forall db uid sid rq1 rq2 env1 env2 r1 r2,
    resolve_session_id rq1 env1 = sid ->
    resolve_session_id rq2 env2 = sid ->
    generate_content env1 (turn_prompt (turn_read db uid rq1 env1) rq1 env1)
    = Completed r1 ->
    generate_content env2 (turn_prompt (turn_read db uid rq2 env2) rq2 env2)
    = Completed r2 ->
    (exists db' resp1 resp2,
        run_schedule [First; Second; First; Second] db
          (Waiting uid rq1 env1) (Waiting uid rq2 env2)
        = (db', Finished (inr resp1), Finished (inr resp2))
        /\ response resp1 = r1 /\ response resp2 = r2
        /\ get_chat_history db' sid uid
           = get_chat_history db sid uid
             ++ [user_message rq2 env2; ai_message r2 env2])
    /\ (forall doc stored,
           Chats.matches sid uid doc = true ->
           get_chat_history (Chats.update_one sid uid doc stored) sid uid
           = messages doc).
Proof.
  intros db uid sid rq1 rq2 env1 env2 r1 r2 S1 S2 G1 G2.
  assert (W : forall doc stored,
             Chats.matches sid uid doc = true ->
             get_chat_history (Chats.update_one sid uid doc stored) sid uid
             = messages doc).
  { intros doc stored K. unfold get_chat_history.
    now rewrite (find_one_update_same _ _ _ _ K). }
  split; [| exact W].
  unfold turn_prompt in G1, G2.
  cbn [run_schedule step_task]. unfold turn_work. rewrite G1.
  cbn [turn_commit]. rewrite G2. cbn [turn_commit].
  rewrite S1, S2.
  do 3 eexists. split; [reflexivity |].
  split; [reflexivity |]. split; [reflexivity |].
  rewrite W.
  - simpl. unfold turn_read. rewrite S2, load_chat_doc_messages.
    now rewrite <- app_assoc.
  - rewrite !append_message_key. unfold turn_read. rewrite S2.
    apply load_chat_doc_key.
Qed.

Lemma concurrent_turns_lose_update_witness :
  resolve_session_id (mkChatRequest "Now I have a fever" (Some "s1"))
    (env_ok 20 "Keep hydrated.") = "s1"
  /\ resolve_session_id (mkChatRequest "And my head hurts" (Some "s1"))
       (env_ok 21 "Rest in a quiet room.") = "s1"
  /\ exists db' resp1 resp2,
    run_schedule [First; Second; First; Second] sample_store
      (Waiting "alice" (mkChatRequest "Now I have a fever" (Some "s1"))
         (env_ok 20 "Keep hydrated."))
      (Waiting "alice" (mkChatRequest "And my head hurts" (Some "s1"))
         (env_ok 21 "Rest in a quiet room."))
    = (db', Finished (inr resp1), Finished (inr resp2))
    /\ response resp1 = "Keep hydrated."
    /\ response resp2 = "Rest in a quiet room."
    /\ get_chat_history db' "s1" "alice"
       = get_chat_history sample_store "s1" "alice"
         ++ [mkMessage "user" "And my head hurts" 22;
             mkMessage "assistant" "Rest in a quiet room." 23].
Proof.
  split; [reflexivity |]. split; [reflexivity |].
  exact (proj1 (concurrent_turns_lose_update sample_store "alice" "s1"
                  (mkChatRequest "Now I have a fever" (Some "s1"))
                  (mkChatRequest "And my head hurts" (Some "s1"))
                  (env_ok 20 "Keep hydrated.")
                  (env_ok 21 "Rest in a quiet room.")
                  "Keep hydrated." "Rest in a quiet room."
                  eq_refl eq_refl eq_refl eq_refl)).
Defined.

(** * Further properties of the handlers *)

(** ** Sessions of the symptom checker *)

(** X1: the session identifier a successful turn returns is the one its
    exchange is stored under: the history read back with it ends with the
    user message and the reply.  Without an identifier, or with the empty
    string, it is the fresh uuid; otherwise it is the one supplied. *)
Theorem returned_session_id_reads_back :
  forall db uid request env r,
    generate_content env
      (turn_prompt (turn_read db uid request env) request env) = Completed r ->
    exists resp,
      snd (symptom_check db uid request env) = inr resp
      /\ get_chat_history (fst (symptom_check db uid request env))
           (resp_session_id resp) uid
         = get_chat_history db (resp_session_id resp) uid
           ++ [user_message request env; ai_message r env]
      /\ (req_session_id request = None \/ req_session_id request = Some "" ->
          resp_session_id resp = uuid4 env)
      /\ (forall s, req_session_id request = Some s -> s <> "" ->
                    resp_session_id resp = s).
Proof.
  intros db uid request env r G.
  destruct (symptom_check_success db uid request env r G) as (A & B & _).
  eexists. split; [exact A |]. simpl. split; [exact B |].
  unfold resolve_session_id. split.
  - intros [E | E]; rewrite E; reflexivity.
  - intros s E N. rewrite E. simpl.
    destruct (String.eqb s "") eqn:Q; [| reflexivity].
    apply String.eqb_eq in Q. contradiction.
Qed.

Lemma returned_session_id_reads_back_witness :
  exists resp,
    snd (symptom_check sample_store "alice"
           (mkChatRequest "I feel tired" (Some ""))
           (env_ok 50 "Sleep early.")) = inr resp
    /\ resp_session_id resp = "7c1e0c1a-fresh"
    /\ get_chat_history
         (fst (symptom_check sample_store "alice"
                 (mkChatRequest "I feel tired" (Some ""))
                 (env_ok 50 "Sleep early.")))
         "7c1e0c1a-fresh" "alice"
       = [mkMessage "user" "I feel tired" 51;
          mkMessage "assistant" "Sleep early." 52].
Proof.
  destruct (returned_session_id_reads_back sample_store "alice"
              (mkChatRequest "I feel tired" (Some ""))
              (env_ok 50 "Sleep early.") "Sleep early." eq_refl)
    as (resp & A & B & C & _).
  exists resp. split; [exact A |].
  assert (E : resp_session_id resp = "7c1e0c1a-fresh")
    by (apply C; right; reflexivity).
  split; [exact E |]. rewrite E in B. exact B.
Defined.

(** X2: a turn, successful or not, leaves the history of every other
    (session, user) pair as it was; in particular the same session
    identifier under another user is another conversation. *)
Theorem turn_leaves_other_sessions :
  forall db uid request env sid' uid',
    (sid', uid') <> (resolve_session_id request env, uid) ->
    get_chat_history (fst (symptom_check db uid request env)) sid' uid'
    = get_chat_history db sid' uid'.
Proof.
  intros db uid request env sid' uid' N.
  destruct (generate_content env
              (turn_prompt (turn_read db uid request env) request env))
    as [r | err] eqn:G.
  - destruct (symptom_check_success db uid request env r G) as (_ & _ & C).
    now apply C.
  - now rewrite (symptom_check_failure _ _ _ _ _ G).
Qed.

Lemma turn_leaves_other_sessions_witness :
  ("s1", "alice") <> ("s1", "mallory")
  /\ get_chat_history
       (fst (symptom_check sample_store "mallory"
               (mkChatRequest "show me" (Some "s1")) (env_ok 60 "Hello.")))
       "s1" "alice"
     = get_chat_history sample_store "s1" "alice".
Proof.
  assert (N : ("s1", "alice") <> ("s1", "mallory")) by discriminate.
  split; [exact N |].
  apply (turn_leaves_other_sessions sample_store "mallory"
           (mkChatRequest "show me" (Some "s1")) (env_ok 60 "Hello.")
           "s1" "alice").
  exact N.
Defined.

Lemma matches_doc_key sid uid d :
  Chats.matches sid uid d = true <-> doc_key d = (sid, uid).
Proof.
  rewrite matches_key. unfold doc_key. split.
  - intros [-> ->]. reflexivity.
  - intros E. inversion E. split; reflexivity.
Qed.

Lemma find_one_none_key sid uid db :
  Chats.find_one sid uid db = None -> ~ In (sid, uid) (map doc_key db).
Proof.
  unfold Chats.find_one. intros H I.
  apply in_map_iff in I. destruct I as [d [K I]].
  apply (find_none _ _ H) in I.
  apply matches_doc_key in K. congruence.
Qed.

Lemma update_one_keys sid uid doc db :
  Chats.matches sid uid doc = true ->
  map doc_key (Chats.update_one sid uid doc db)
  = match Chats.find_one sid uid db with
    | Some _ => map doc_key db
    | None => map doc_key db ++ [(sid, uid)]
    end.
Proof.
  intros K. unfold Chats.find_one.
  induction db as [| d rest IH]; simpl.
  - apply matches_doc_key in K. now rewrite K.
  - destruct (Chats.matches sid uid d) eqn:E; simpl.
    + apply matches_doc_key in K. apply matches_doc_key in E.
      now rewrite K, E.
    + rewrite IH. now destruct (find (Chats.matches sid uid) rest).
Qed.

Lemma NoDup_snoc (A : Type) (l : list A) (x : A) :
  NoDup l -> ~ In x l -> NoDup (l ++ [x]).
Proof.
  induction 1 as [| y l Hy Hl IH]; intros Hx; simpl.
  - constructor; [intros [] | constructor].
  - constructor.
    + intros I. apply in_app_or in I. destruct I as [I | [-> | []]].
      * contradiction.
      * apply Hx. now left.
    + apply IH. intros I. apply Hx. now right.
Qed.

Lemma symptom_check_keys db uid request env :
  NoDup (map doc_key db) ->
  NoDup (map doc_key (fst (symptom_check db uid request env)))
  /\ length db <= length (fst (symptom_check db uid request env))
     <= length db + 1.
Proof.
  intros H. rewrite symptom_check_unfold.
  destruct (generate_content env _) as [r | err]; simpl.
  - set (sid := resolve_session_id request env).
    set (doc := append_message _ _).
    assert (K : Chats.matches sid uid doc = true).
    { subst doc. rewrite !append_message_key. apply load_chat_doc_key. }
    pose proof (update_one_keys sid uid doc db K) as E.
    assert (L : length (Chats.update_one sid uid doc db)
                = length (map doc_key (Chats.update_one sid uid doc db)))
      by now rewrite length_map.
    rewrite E in *.
    destruct (Chats.find_one sid uid db) eqn:F.
    + rewrite length_map in L. split; [exact H | lia].
    + rewrite length_app, length_map in L. simpl in L. split; [| lia].
      apply NoDup_snoc; [exact H | now apply find_one_none_key].
  - split; [exact H | lia].
Qed.

(** X3: turns never create a second document for a (session, user) pair:
    when the keys of the collection are pairwise distinct they stay so
    through any sequence of turns, and each turn adds at most one
    document. *)
Theorem session_keys_stay_unique :
  forall turns db,
    NoDup (map doc_key db) ->
    NoDup (map doc_key (fst (run_turns db turns)))
    /\ length db <= length (fst (run_turns db turns))
       <= length db + length turns.
Proof.
  induction turns as [| t rest IH]; intros db H.
  - simpl. split; [exact H | lia].
  - rewrite run_turns_cons. cbn [fst].
    destruct (symptom_check_keys db (turn_user t) (turn_request t)
                (turn_env t) H) as [H1 L1].
    destruct (IH _ H1) as [H2 L2].
    split; [exact H2 |]. simpl length. lia.
Qed.

Lemma session_keys_stay_unique_witness :
  NoDup (map doc_key sample_store)
  /\ NoDup (map doc_key (fst (run_turns sample_store sample_turns)))
  /\ length (fst (run_turns sample_store sample_turns)) = 3.
Proof.
  assert (H : NoDup (map doc_key sample_store)).
  { simpl. constructor; [intros [] | constructor]. }
  split; [exact H |].
  split; [| reflexivity].
  exact (proj1 (session_keys_stay_unique sample_turns sample_store H)).
Defined.

(** X4: a successful turn keeps the creation time of an existing session
    and stamps a new one with the time of the turn. *)
Theorem turn_keeps_creation_time :
  forall db uid request env r,
    generate_content env
      (turn_prompt (turn_read db uid request env) request env) = Completed r ->
    let sid := resolve_session_id request env in
    exists stored,
      Chats.find_one sid uid (fst (symptom_check db uid request env))
      = Some stored
      /\ session_id stored = sid /\ user_id stored = uid
      /\ created_at stored
         = match Chats.find_one sid uid db with
           | Some before => created_at before
           | None => now_created env
           end.
Proof.
  intros db uid request env r G sid.
  rewrite symptom_check_unfold, G. simpl. fold sid.
  set (doc := append_message _ _).
  assert (K : Chats.matches sid uid doc = true).
  { subst doc. rewrite !append_message_key. apply load_chat_doc_key. }
  exists doc. split; [now apply find_one_update_same |].
  apply matches_key in K. destruct K as [Ks Ku].
  split; [exact Ks |]. split; [exact Ku |].
  subst doc. simpl. unfold turn_read, load_chat_doc. fold sid.
  now destruct (Chats.find_one sid uid db).
Qed.

Lemma turn_keeps_creation_time_witness :
  exists stored,
    Chats.find_one "s1" "alice"
      (fst (symptom_check sample_store "alice"
              (mkChatRequest "Still coughing" (Some "s1"))
              (env_ok 70 "See a doctor.")))
    = Some stored
    /\ created_at stored = 9%Z.
Proof.
  destruct (turn_keeps_creation_time sample_store "alice"
              (mkChatRequest "Still coughing" (Some "s1"))
              (env_ok 70 "See a doctor.") "See a doctor." eq_refl)
    as (stored & F & _ & _ & C).
  exists stored. split; [exact F | exact C].
Defined.

(** X5: a history query only ever shows messages of a document stored for
    that very session and user, and shows nothing when there is none. *)
Theorem history_is_scoped :
  forall db sid uid,
    (forall m, In m (get_chat_history db sid uid) ->
       exists d, In d db /\ session_id d = sid /\ user_id d = uid
                 /\ In m (messages d))
    /\ ((forall d, In d db -> doc_key d <> (sid, uid)) ->
        get_chat_history db sid uid = []).
Proof.
  intros db sid uid. unfold get_chat_history, Chats.find_one. split.
  - intros m I.
    destruct (find (Chats.matches sid uid) db) as [d |] eqn:F; [| destruct I].
    apply find_some in F. destruct F as [Hd K].
    apply matches_key in K. destruct K as [Ks Ku].
    exists d. auto.
  - intros H.
    destruct (find (Chats.matches sid uid) db) as [d |] eqn:F; [| reflexivity].
    apply find_some in F. destruct F as [Hd K].
    apply matches_doc_key in K. now apply H in Hd.
Qed.

Lemma history_is_scoped_witness :
  get_chat_history sample_store "s1" "bob" = [].
Proof.
  apply (proj2 (history_is_scoped sample_store "s1" "bob")).
  intros d [<- | []]. discriminate.
Defined.

(** ** Topics and prompts *)

Lemma lower_app a b :
  Py.lower (a ++ b) = (Py.lower a ++ Py.lower b)%string.
Proof.
  induction a as [| c a IH]; simpl; [reflexivity |]. now rewrite IH.
Qed.

Lemma scan_keywords_some keywords s k :
  In k keywords -> Py.contains k s = true -> scan_keywords keywords s <> None.
Proof.
  induction keywords as [| k0 rest IH]; intros I C; [destruct I |].
  simpl. destruct (Py.contains k0 s) eqn:E; [discriminate |].
  destruct I as [-> | I]; [congruence | now apply IH].
Qed.

Lemma scan_keywords_range keywords s t :
  scan_keywords keywords s = Some t -> In t (map Py.capitalize keywords).
Proof.
  induction keywords as [| k rest IH]; simpl; [discriminate |].
  destruct (Py.contains k s).
  - intros E. inversion E. now left.
  - intros E. right. now apply IH.
Qed.

(** X6: the scan looks for the keywords as substrings of the lower-cased
    message, so a keyword written in any letter case and placed anywhere,
    inside a longer word too, sets a topic. *)
Theorem keyword_anywhere_sets_topic :
  forall pre w post,
    In (Py.lower w) symptom_keywords ->
    extract_symptom (pre ++ w ++ post) <> None.
Proof.
  intros pre w post I. unfold extract_symptom.
  apply scan_keywords_some with (k := Py.lower w); [exact I |].
  apply contains_spec. exists (Py.lower pre), (Py.lower post).
  now rewrite !lower_app.
Qed.

Lemma keyword_anywhere_sets_topic_witness :
  In (Py.lower "TIRED") symptom_keywords
  /\ extract_symptom ("I am re" ++ "TIRED" ++ " since May") <> None.
Proof.
  assert (I : In (Py.lower "TIRED") symptom_keywords).
  { simpl. do 4 right. left. reflexivity. }
  split; [exact I |].
  exact (keyword_anywhere_sets_topic "I am re" "TIRED" " since May" I).
Defined.

(** X7: the topic is unset exactly when no keyword occurs in the
    lower-cased message, and a topic that is set is one of the seven
    capitalised keywords. *)
Theorem topic_range :
  forall m,
    (extract_symptom m = None
     <-> forall k, In k symptom_keywords ->
                   Py.contains k (Py.lower m) = false)
    /\ (forall t, extract_symptom m = Some t ->
          In t ["Headache"; "Fever"; "Cough"; "Pain"; "Tired"; "Nausea";
                "Dizzy"]).
Proof.
  intros m. unfold extract_symptom. split; [split |].
  - intros E k I.
    destruct (Py.contains k (Py.lower m)) eqn:C; [| reflexivity].
    exfalso. exact (scan_keywords_some symptom_keywords _ k I C E).
  - apply scan_keywords_none.
  - intros t E. exact (scan_keywords_range symptom_keywords _ t E).
Qed.

Lemma slice_last_app (A : Type) (n : nat) (l1 l2 : list A) :
  n <= length l2 -> Py.slice_last n (l1 ++ l2) = Py.slice_last n l2.
Proof.
  intros H. unfold Py.slice_last.
  rewrite length_app, skipn_app.
  rewrite skipn_all2 by lia.
  replace (length l1 + length l2 - n - length l1) with (length l2 - n) by lia.
  reflexivity.
Qed.

(** X8: once a session holds five messages or more, the prompt of the
    next turn is made of the last five and the new user message alone:
    two sessions that end with the same five messages get the same
    prompt, whatever came before. *)
Theorem prompt_ignores_older_messages :
  forall d d' request env older older' recent,
    messages d = older ++ recent ->
    messages d' = older' ++ recent ->
    5 <= length recent ->
    turn_prompt d request env = turn_prompt d' request env.
Proof.
  intros d d' request env older older' recent E E' L.
  unfold turn_prompt, full_prompt, conversation_history, context_window.
  cbn [messages append_message]. rewrite E, E', <- !app_assoc.
  rewrite (slice_last_app _ 6 older), (slice_last_app _ 6 older')
    by (rewrite length_app; simpl; lia).
  reflexivity.
Qed.

Lemma prompt_ignores_older_messages_witness :
  turn_prompt
    (mkChatDoc "s" "alice" (mkMessage "user" "u1" 1 :: five_messages) 0)
    (mkChatRequest "next" (Some "s")) (env_ok 9 "ok")
  = turn_prompt
      (mkChatDoc "s" "alice"
         (mkMessage "user" "something else" 0
          :: mkMessage "user" "entirely" 1 :: five_messages) 0)
      (mkChatRequest "next" (Some "s")) (env_ok 9 "ok").
Proof.
  apply (prompt_ignores_older_messages _ _ _ _
           [mkMessage "user" "u1" 1]
           [mkMessage "user" "something else" 0; mkMessage "user" "entirely" 1]
           five_messages); [reflexivity | reflexivity |].
  simpl. lia.
Defined.

(** ** More on the session list *)

Lemma sorted_app_related (A : Type) (R : A -> A -> Prop) (l1 l2 : list A) :
  StronglySorted R (l1 ++ l2) ->
  forall a b, In a l1 -> In b l2 -> R a b.
Proof.
  induction l1 as [| x l1 IH]; simpl; intros H a b Ia Ib; [destruct Ia |].
  inversion H as [| ? ? Hs Hall]; subst.
  destruct Ia as [-> | Ia].
  - rewrite Forall_forall in Hall. apply Hall.
    apply in_or_app. now right.
  - now apply IH.
Qed.

(** X9: a user with at most 20 sessions sees every one of them in the
    list. *)
Theorem few_sessions_all_listed :
  forall db uid chat,
    length (Chats.find_user uid db) <= 20 ->
    In chat db -> user_id chat = uid ->
    In (summarize chat) (get_chat_sessions db uid).
Proof.
  intros db uid chat L I U.
  unfold get_chat_sessions, listed_chats, sessions_limit.
  apply in_map. rewrite firstn_all2.
  - apply sort_created_desc_In. unfold Chats.find_user.
    apply filter_In. split; [exact I |]. now apply String.eqb_eq.
  - now rewrite sort_created_desc_length.
Qed.

Lemma few_sessions_all_listed_witness :
  In (summarize (mkChatDoc "s3" "alice" [] 9))
     (get_chat_sessions sample_sessions "alice").
Proof.
  apply (few_sessions_all_listed sample_sessions "alice").
  - simpl. lia.
  - simpl. right. right. left. reflexivity.
  - reflexivity.
Defined.

(** X10: the sessions left out of the list are never newer than a listed
    one: every session of the user is listed or was created no later
    than each listed session. *)
Theorem listed_sessions_are_newest :
  forall db uid listed other,
    In listed (listed_chats db uid) ->
    In other db -> user_id other = uid ->
    In other (listed_chats db uid)
    \/ (created_at other <= created_at listed)%Z.
Proof.
  intros db uid listed other Il Io U.
  unfold listed_chats in *.
  set (sorted := Chats.sort_created_desc (Chats.find_user uid db)) in *.
  assert (Is : In other sorted).
  { subst sorted. apply sort_created_desc_In. unfold Chats.find_user.
    apply filter_In. split; [exact Io |]. now apply String.eqb_eq. }
  rewrite <- (firstn_skipn sessions_limit sorted) in Is.
  apply in_app_or in Is. destruct Is as [Is | Is]; [now left |].
  right.
  assert (S : StronglySorted newer_first
                (firstn sessions_limit sorted ++ skipn sessions_limit sorted)).
  { rewrite firstn_skipn. subst sorted. apply sort_created_desc_sorted. }
  exact (sorted_app_related _ _ _ _ S listed other Il Is).
Qed.

Lemma listed_sessions_are_newest_witness :
  length (Chats.find_user "alice" many_sessions) = 22
  /\ In (mkChatDoc "C" "alice" [] 2) (listed_chats many_sessions "alice")
  /\ In (mkChatDoc "A" "alice" [] 0) many_sessions
  /\ ~ In (mkChatDoc "A" "alice" [] 0) (listed_chats many_sessions "alice")
  /\ (created_at (mkChatDoc "A" "alice" [] 0)
      <= created_at (mkChatDoc "C" "alice" [] 2))%Z.
Proof.
  assert (Il : In (mkChatDoc "C" "alice" [] 2)
                  (listed_chats many_sessions "alice")).
  { vm_compute. do 19 right. left. reflexivity. }
  assert (Io : In (mkChatDoc "A" "alice" [] 0) many_sessions).
  { vm_compute. left. reflexivity. }
  assert (Out : ~ In (mkChatDoc "A" "alice" [] 0)
                     (listed_chats many_sessions "alice")).
  { vm_compute. intros H.
    repeat (destruct H as [H | H]; [discriminate H |]). exact H. }
  split; [reflexivity |]. split; [exact Il |]. split; [exact Io |].
  split; [exact Out |].
  destruct (listed_sessions_are_newest many_sessions "alice"
              (mkChatDoc "C" "alice" [] 2) (mkChatDoc "A" "alice" [] 0)
              Il Io eq_refl) as [H | H].
  - contradiction.
  - exact H.
Defined.

Lemma str_length_app a b :
  String.length (a ++ b) = String.length a + String.length b.
Proof.
  induction a as [| c a IH]; simpl; [reflexivity |]. now rewrite IH.
Qed.

Lemma str_take_all n s :
  String.length s <= n -> Py.str_take n s = s.
Proof.
  unfold Py.str_take. revert s.
  induction n as [| n IH]; intros [| c s] H; simpl in *;
    try reflexivity; try lia.
  rewrite IH by lia. reflexivity.
Qed.

Lemma str_take_length n s :
  String.length (Py.str_take n s) <= n.
Proof.
  destruct (str_take_prefix n s) as [rest [_ L]]. rewrite L.
  apply Nat.le_min_l.
Qed.

(** X11: the preview of a listed session has at most 53 characters, and
    the three dots are appended even when nothing was cut: a last message
    of 50 characters or fewer is shown whole, followed by the dots. *)
Theorem session_preview_always_dotted :
  forall chat,
    String.length (last_message (summarize chat)) <= 53
    /\ (forall earlier m,
          messages chat = earlier ++ [m] ->
          String.length (content m) <= 50 ->
          last_message (summarize chat) = (content m ++ "...")%string).
Proof.
  intros chat. unfold summarize. simpl. rewrite last_or_none_rev. split.
  - destruct (hd_error (rev (messages chat))) as [m |]; simpl; [| lia].
    rewrite str_length_app. simpl.
    pose proof (str_take_length 50 (content m)). lia.
  - intros earlier m E L. rewrite E, rev_app_distr. simpl.
    now rewrite str_take_all.
Qed.

Lemma session_preview_always_dotted_witness :
  last_message (summarize (mkChatDoc "s" "alice" [mkMessage "user" "ok" 1] 0))
  = "ok...".
Proof.
  apply (proj2 (session_preview_always_dotted
                  (mkChatDoc "s" "alice" [mkMessage "user" "ok" 1] 0))
           [] (mkMessage "user" "ok" 1)); [reflexivity |].
  simpl. lia.
Defined.

(** ** The weather advisory over the whole temperature range *)

Lemma alert_message_cases (t : Q) (c : string) :
  ((30 < t)%Q /\ Weather.alert_message t c = Weather.hot_text)
  \/ ((25 < t)%Q /\ (t <= 30)%Q
      /\ Weather.alert_message t c = Weather.pleasant_text)
  \/ ((t < 10)%Q /\ Weather.alert_message t c = Weather.cold_text)
  \/ ((10 <= t)%Q /\ (t <= 25)%Q
      /\ Py.contains "rain" (Py.lower c) = true
      /\ Weather.alert_message t c = Weather.rain_text)
  \/ ((10 <= t)%Q /\ (t <= 25)%Q
      /\ Py.contains "rain" (Py.lower c) = false
      /\ Weather.alert_message t c = Weather.default_text).
Proof.
  unfold Weather.alert_message.
  destruct (Weather.Qltb 30 t) eqn:H30.
  { left. split; [now apply Qltb_spec | reflexivity]. }
  apply Qltb_false in H30.
  destruct (Weather.Qltb 25 t) eqn:H25.
  { right; left. split; [now apply Qltb_spec |]. split; [exact H30 |].
    reflexivity. }
  apply Qltb_false in H25.
  destruct (Weather.Qltb t 10) eqn:H10.
  { right; right; left. split; [now apply Qltb_spec | reflexivity]. }
  apply Qltb_false in H10.
  destruct (Weather.Qltb t 0) eqn:H0.
  { exfalso. apply Qltb_spec in H0.
    apply (Qlt_irrefl t).
    apply Qlt_le_trans with (y := 0%Q); [exact H0 |].
    apply Qle_trans with (y := 10%Q); [discriminate | exact H10]. }
  destruct (Py.contains "rain" (Py.lower c)) eqn:R.
  - right; right; right; left. repeat split; assumption.
  - right; right; right; right. repeat split; assumption.
Qed.

Ltac order_clash :=
  match goal with
  | [ H1 : (?a < ?t)%Q, H2 : (?t < ?b)%Q |- _ ] =>
      exfalso; apply (Qlt_irrefl t);
      apply Qlt_trans with (y := b); [exact H2 |];
      apply Qle_lt_trans with (y := a); [discriminate | exact H1]
  | [ H1 : (?a < ?t)%Q, H2 : (?t <= ?b)%Q |- _ ] =>
      exfalso; apply (Qlt_irrefl t);
      apply Qle_lt_trans with (y := b); [exact H2 |];
      apply Qle_lt_trans with (y := a); [discriminate | exact H1]
  | [ H1 : (?t < ?b)%Q, H2 : (?a <= ?t)%Q |- _ ] =>
      exfalso; apply (Qlt_irrefl t);
      apply Qlt_le_trans with (y := b); [exact H1 |];
      apply Qle_trans with (y := a); [discriminate | exact H2]
  end.

(** X12: the advisory splits the temperatures into fixed ranges: hot
    above 30, pleasant above 25 up to 30, cold below 10, and from 10 to
    25 the rain text or the default according to the condition; the
    freezing text is returned for no temperature and no condition. *)
Theorem alert_message_ranges :
  forall t c,
    Weather.alert_message t c <> Weather.freezing_text
    /\ (Weather.alert_message t c = Weather.hot_text <-> (30 < t)%Q)
    /\ (Weather.alert_message t c = Weather.pleasant_text
        <-> (25 < t)%Q /\ (t <= 30)%Q)
    /\ (Weather.alert_message t c = Weather.cold_text <-> (t < 10)%Q)
    /\ (Weather.alert_message t c = Weather.rain_text
        <-> (10 <= t)%Q /\ (t <= 25)%Q
            /\ Py.contains "rain" (Py.lower c) = true)
    /\ (Weather.alert_message t c = Weather.default_text
        <-> (10 <= t)%Q /\ (t <= 25)%Q
            /\ Py.contains "rain" (Py.lower c) = false).
Proof.
  intros t c.
  destruct (alert_message_cases t c)
    as [(A & E) | [(A & B & E) | [(A & E) | [(A & B & R & E) | (A & B & R & E)]]]];
    rewrite E;
    (split; [discriminate |]);
    repeat split; intros; try discriminate; try assumption;
    repeat match goal with
           | [ H : _ /\ _ |- _ ] => destruct H
           end;
    try congruence; try order_clash.
Qed.

(** X13: the weather handler never answers with the 400 it raises for a
    provider status other than 200: that exception, like every other
    one of the body, reaches the caller as a 500; a response is produced
    only for status 200 with a readable body, and it copies the
    provider's fields and carries the advisory for them. *)
Theorem get_weather_errors_are_500 :
  forall str_of p,
    (forall e, get_weather str_of p = inl e -> status_code e = 500)
    /\ (forall status body,
          p = ProviderAnswered status body -> status <> 200 ->
          get_weather str_of p
          = inl (mkHTTPException 500
                   (str_of (mkHTTPException 400
                              "Unable to fetch weather data"))))
    /\ (forall r, get_weather str_of p = inr r ->
          exists current,
            p = ProviderAnswered 200 (inr current)
            /\ w_temperature r = cur_temp_c current
            /\ w_condition r = cur_condition_text current
            /\ w_feels_like r = cur_feelslike_c current
            /\ w_humidity r = cur_humidity current
            /\ w_icon r = cur_condition_icon current
            /\ w_alert_message r
               = Weather.alert_message (cur_temp_c current)
                   (cur_condition_text current)).
Proof.
  intros str_of p. split; [| split].
  - intros e H. destruct p as [err | status [err | current]]; simpl in H;
      try destruct (Nat.eqb status 200); simpl in H; inversion H;
      reflexivity.
  - intros status body -> N. simpl.
    destruct (Nat.eqb_spec status 200) as [E | _]; [contradiction |].
    reflexivity.
  - intros r H. destruct p as [err | status [err | current]]; simpl in H;
      try discriminate H.
    + destruct (Nat.eqb status 200); discriminate H.
    + destruct (Nat.eqb_spec status 200) as [-> | _]; simpl in H;
        [| discriminate H].
      exists current. inversion H. simpl. repeat split; reflexivity.
Qed.

Lemma get_weather_errors_are_500_witness :
  get_weather (fun e => detail e) (ProviderAnswered 404 (inl "no body"))
  = inl (mkHTTPException 500 "Unable to fetch weather data").
Proof.
  apply (proj1 (proj2 (get_weather_errors_are_500 (fun e => detail e)
                         (ProviderAnswered 404 (inl "no body"))))
           404 (inl "no body") eq_refl).
  discriminate.
Defined.

(** ** Users: sign-in and profile *)

Section UserStore.

Variable f : User -> User.
Hypothesis f_id : forall u, u_id (f u) = u_id u.
Hypothesis f_email : forall u, u_email (f u) = u_email u.

Lemma update_by_id_emails id users :
  map u_email (Users.update_by_id id f users) = map u_email users.
Proof.
  induction users as [| u rest IH]; simpl; [reflexivity |].
  destruct (String.eqb (u_id u) id); simpl.
  - now rewrite f_email.
  - now rewrite IH.
Qed.

Lemma update_by_id_length id users :
  length (Users.update_by_id id f users) = length users.
Proof.
  induction users as [| u rest IH]; simpl; [reflexivity |].
  destruct (String.eqb (u_id u) id); simpl; [reflexivity | now rewrite IH].
Qed.

Lemma find_by_email_update id email users :
  option_map u_id
    (Users.find_by_email email (Users.update_by_id id f users))
  = option_map u_id (Users.find_by_email email users).
Proof.
  unfold Users.find_by_email.
  induction users as [| u rest IH]; simpl; [reflexivity |].
  destruct (String.eqb (u_id u) id); simpl.
  - rewrite f_email. destruct (String.eqb (u_email u) email); simpl.
    + now rewrite f_id.
    + reflexivity.
  - destruct (String.eqb (u_email u) email); simpl; [reflexivity | exact IH].
Qed.

Lemma find_by_id_update_same id users u :
  Users.find_by_id id users = Some u ->
  Users.find_by_id id (Users.update_by_id id f users) = Some (f u).
Proof.
  unfold Users.find_by_id.
  induction users as [| v rest IH]; simpl; [discriminate |].
  destruct (String.eqb (u_id v) id) eqn:E; simpl.
  - intros H. inversion H; subst. now rewrite f_id, E.
  - rewrite E. exact IH.
Qed.

Lemma find_by_id_update_other id id' users :
  id' <> id ->
  Users.find_by_id id' (Users.update_by_id id f users)
  = Users.find_by_id id' users.
Proof.
  intros N. unfold Users.find_by_id.
  induction users as [| v rest IH]; simpl; [reflexivity |].
  destruct (String.eqb (u_id v) id) eqn:E; simpl.
  - rewrite f_id. apply String.eqb_eq in E.
    assert (F : String.eqb (u_id v) id' = false).
    { apply String.eqb_neq. congruence. }
    now rewrite F.
  - destruct (String.eqb (u_id v) id'); [reflexivity | exact IH].
Qed.

End UserStore.

Lemma find_by_email_none email users :
  Users.find_by_email email users = None -> ~ In email (map u_email users).
Proof.
  unfold Users.find_by_email. intros H I.
  apply in_map_iff in I. destruct I as [u [E I]].
  apply (find_none _ _ H) in I. simpl in I.
  rewrite E, String.eqb_refl in I. discriminate.
Qed.

Lemma find_by_email_snoc email users user :
  Users.find_by_email email users = None ->
  u_email user = email ->
  Users.find_by_email email (Users.insert_one user users) = Some user.
Proof.
  unfold Users.find_by_email, Users.insert_one. intros H E.
  induction users as [| u rest IH]; simpl in *.
  - now rewrite E, String.eqb_refl.
  - destruct (String.eqb (u_email u) email); [discriminate | now apply IH].
Qed.

(** What a sign-in with a verified e-mail does. *)
Lemma google_auth_verified users env gu email :
  tokeninfo env = TokenInfoAnswered 200 (inr gu) ->
  g_email gu = Some email ->
  exists user,
    snd (google_auth users env) = inr (auth_response env user)
    /\ Users.find_by_email email (fst (google_auth users env))
       <> None
    /\ option_map u_id
         (Users.find_by_email email (fst (google_auth users env)))
       = Some (u_id user)
    /\ (Users.find_by_email email users = None ->
        fst (google_auth users env) = users ++ [user]
        /\ u_id user = auth_uuid4 env /\ u_email user = email)
    /\ (Users.find_by_email email users <> None ->
        Users.find_by_email email users = Some user
        /\ length (fst (google_auth users env)) = length users
        /\ map u_email (fst (google_auth users env)) = map u_email users).
Proof.
  intros T E. unfold google_auth. rewrite T. simpl. rewrite E.
  destruct (Users.find_by_email email users) as [user |] eqn:F.
  - exists user. simpl.
    pose proof (find_by_email_update (Users.set_last_active (auth_now1 env))
                  (fun u => eq_refl) (fun u => eq_refl)
                  (u_id user) email users) as P.
    rewrite F in P. simpl in P.
    split; [reflexivity |]. split.
    + intros Q. rewrite Q in P. discriminate.
    + split; [exact P |]. split; [discriminate |].
      intros _. split; [reflexivity |]. split.
      * apply update_by_id_length.
      * apply update_by_id_emails. reflexivity.
  - eexists. simpl. split; [reflexivity |].
    rewrite find_by_email_snoc by (try exact F; reflexivity).
    split; [discriminate |]. split; [reflexivity |].
    split; [| intros C; now contradiction C].
    intros _. unfold Users.insert_one. repeat split; reflexivity.
Qed.

(** X14: every failure of the sign-in reaches the caller as a 500 and
    leaves the users as they were; a token the verifier rejects (status
    other than 200) is among them: the 400 raised for it is caught and
    turned into the detail of a 500. *)
Theorem google_auth_failures_are_500 :
  forall users env,
    (forall e, snd (google_auth users env) = inl e ->
       status_code e = 500 /\ fst (google_auth users env) = users)
    /\ (forall status body,
          tokeninfo env = TokenInfoAnswered status body -> status <> 200 ->
          google_auth users env
          = (users,
             inl (mkHTTPException 500
                    (str_exc env (mkHTTPException 400 "Invalid token"))))).
Proof.
  intros users env. split.
  - unfold google_auth.
    destruct (tokeninfo env) as [err | status [err | gu]]; simpl;
      try destruct (Nat.eqb status 200); simpl;
      try (intros e H; inversion H; split; reflexivity).
    destruct (g_email gu) as [email |]; simpl;
      [| intros e H; inversion H; split; reflexivity].
    destruct (Users.find_by_email email users); simpl;
      intros e H; discriminate H.
  - intros status body T N. unfold google_auth. rewrite T.
    destruct (Nat.eqb_spec status 200) as [E | _]; [contradiction |].
    reflexivity.
Qed.

Lemma google_auth_failures_are_500_witness :
  google_auth sample_users
    (mkAuthEnv (TokenInfoAnswered 401 (inl "unauthorized")) "u-new" 1 2 3
       (fun sub _ => sub) (fun e => detail e))
  = (sample_users, inl (mkHTTPException 500 "Invalid token")).
Proof.
  apply (proj2 (google_auth_failures_are_500 sample_users
                  (mkAuthEnv (TokenInfoAnswered 401 (inl "unauthorized"))
                     "u-new" 1 2 3 (fun sub _ => sub) (fun e => detail e)))
           401 (inl "unauthorized") eq_refl).
  discriminate.
Defined.

(** X15: signing in again with the same verified e-mail creates no second
    user: the second sign-in returns the identifier the first one
    returned and leaves the number of users and their e-mails as the
    first one left them. *)
Theorem repeated_sign_in_same_user :
  forall users env env' gu gu' email,
    tokeninfo env = TokenInfoAnswered 200 (inr gu) ->
    g_email gu = Some email ->
    tokeninfo env' = TokenInfoAnswered 200 (inr gu') ->
    g_email gu' = Some email ->
    let users1 := fst (google_auth users env) in
    let users2 := fst (google_auth users1 env') in
    exists r1 r2,
      snd (google_auth users env) = inr r1
      /\ snd (google_auth users1 env') = inr r2
      /\ au_id (auth_user r2) = au_id (auth_user r1)
      /\ length users2 = length users1
      /\ map u_email users2 = map u_email users1.
Proof.
  intros users env env' gu gu' email T E T' E' users1 users2.
  destruct (google_auth_verified users env gu email T E)
    as (u1 & R1 & F1 & I1 & _).
  destruct (google_auth_verified users1 env' gu' email T' E')
    as (u2 & R2 & _ & _ & _ & K2).
  fold users1 in F1, I1.
  destruct (K2 F1) as (F2 & L2 & M2).
  exists (auth_response env u1), (auth_response env' u2).
  split; [exact R1 |]. split; [exact R2 |].
  split; [| split; [exact L2 | exact M2]].
  simpl. rewrite F2 in I1. simpl in I1. congruence.
Qed.

Lemma repeated_sign_in_same_user_witness :
  exists r1 r2,
    snd (google_auth sample_users (sample_auth_env "carol@example.org" 100))
    = inr r1
    /\ snd (google_auth
              (fst (google_auth sample_users
                      (sample_auth_env "carol@example.org" 100)))
              (sample_auth_env "carol@example.org" 200))
       = inr r2
    /\ au_id (auth_user r2) = au_id (auth_user r1)
    /\ length (fst (google_auth
                      (fst (google_auth sample_users
                              (sample_auth_env "carol@example.org" 100)))
                      (sample_auth_env "carol@example.org" 200)))
       = 3.
Proof.
  destruct (repeated_sign_in_same_user sample_users
              (sample_auth_env "carol@example.org" 100)
              (sample_auth_env "carol@example.org" 200)
              (mkGoogleUser (Some "carol@example.org") (Some "Carol") None)
              (mkGoogleUser (Some "carol@example.org") (Some "Carol") None)
              "carol@example.org" eq_refl eq_refl eq_refl eq_refl)
    as (r1 & r2 & A & B & C & D & _).
  exists r1, r2. split; [exact A |]. split; [exact B |].
  split; [exact C |]. rewrite D. reflexivity.
Defined.

(** X16: sign-ins keep the e-mails of the users pairwise distinct. *)
Theorem sign_in_keeps_emails_unique :
  forall users env,
    NoDup (map u_email users) ->
    NoDup (map u_email (fst (google_auth users env))).
Proof.
  intros users env H. unfold google_auth.
  destruct (tokeninfo env) as [err | status [err | gu]]; simpl;
    try destruct (Nat.eqb status 200); simpl; try exact H.
  destruct (g_email gu) as [email |]; simpl; [| exact H].
  destruct (Users.find_by_email email users) as [user |] eqn:F; simpl.
  - rewrite update_by_id_emails by reflexivity. exact H.
  - unfold Users.insert_one. rewrite map_app. simpl.
    apply NoDup_snoc; [exact H | now apply find_by_email_none].
Qed.

Lemma sign_in_keeps_emails_unique_witness :
  NoDup (map u_email sample_users)
  /\ NoDup (map u_email
              (fst (google_auth sample_users
                      (sample_auth_env "carol@example.org" 100)))).
Proof.
  assert (H : NoDup (map u_email sample_users)).
  { simpl. constructor.
    - intros [E | []]. discriminate E.
    - constructor; [intros [] | constructor]. }
  split; [exact H |].
  exact (sign_in_keeps_emails_unique sample_users
           (sample_auth_env "carol@example.org" 100) H).
Defined.

(** X17: a profile update without a name, or with the empty string as
    name, writes nothing: the users stay as they are and the answer is
    the stored profile. *)
Theorem profile_update_blank_name :
  forall none_error users name current_user,
    name = None \/ name = Some "" ->
    fst (update_user_profile none_error users name current_user) = users
    /\ snd (update_user_profile none_error users name current_user)
       = match Users.find_by_id (u_id current_user) users with
         | Some stored => inr stored
         | None => inl (mkHTTPException 500 none_error)
         end.
Proof.
  intros none_error users name cu [-> | ->]; unfold update_user_profile;
    simpl; destruct (Users.find_by_id (u_id cu) users); split; reflexivity.
Qed.

Lemma profile_update_blank_name_witness :
  fst (update_user_profile "not a mapping" sample_users (Some "")
         (mkUser "u1" "Alice" "alice@example.org" "" 10 20))
  = sample_users.
Proof.
  apply (profile_update_blank_name "not a mapping" sample_users (Some "")
           (mkUser "u1" "Alice" "alice@example.org" "" 10 20)).
  right. reflexivity.
Defined.

(** X18: a profile update with a non-empty name changes the name of the
    stored user and nothing else: the answer is the stored profile with
    the new name (not the caller's copy of it), reading the user back
    gives the same, and every other user is untouched. *)
Theorem profile_update_sets_name :
  forall none_error users n current_user stored,
    n <> "" ->
    Users.find_by_id (u_id current_user) users = Some stored ->
    let users' :=
      fst (update_user_profile none_error users (Some n) current_user) in
    snd (update_user_profile none_error users (Some n) current_user)
    = inr (Users.set_name n stored)
    /\ Users.find_by_id (u_id current_user) users'
       = Some (Users.set_name n stored)
    /\ (forall id', id' <> u_id current_user ->
          Users.find_by_id id' users' = Users.find_by_id id' users)
    /\ length users' = length users
    /\ map u_email users' = map u_email users.
Proof.
  intros none_error users n cu stored N F users'. subst users'.
  unfold update_user_profile. simpl.
  destruct (String.eqb n "") eqn:E;
    [apply String.eqb_eq in E; contradiction |].
  simpl.
  rewrite (find_by_id_update_same (Users.set_name n) (fun u => eq_refl)
             (u_id cu) users stored F).
  simpl. split; [reflexivity |].
  split.
  - apply find_by_id_update_same; [reflexivity | exact F].
  - split.
    + intros id' D. now apply find_by_id_update_other.
    + split; [apply update_by_id_length |].
      apply update_by_id_emails. reflexivity.
Qed.

Lemma profile_update_sets_name_witness :
  snd (update_user_profile "not a mapping" sample_users (Some "Alicia")
         (mkUser "u1" "stale" "stale@example.org" "" 0 0))
  = inr (mkUser "u1" "Alicia" "alice@example.org" "" 10 20).
Proof.
  assert (N : "Alicia" <> "") by discriminate.
  exact (proj1 (profile_update_sets_name "not a mapping" sample_users
                  "Alicia" (mkUser "u1" "stale" "stale@example.org" "" 0 0)
                  (mkUser "u1" "Alice" "alice@example.org" "" 10 20)
                  N eq_refl)).
Defined.

(** ** Sorting a cursor *)

Section SortBy.

Variable A : Type.
Variable key : A -> Z.

Lemma insert_desc_by_In x l y :
  In y (insert_desc_by key x l) <-> y = x \/ In y l.
Proof.
  induction l as [| e rest IH]; simpl.
  - intuition congruence.
  - destruct (key e <=? key x)%Z; simpl.
    + intuition congruence.
    + rewrite IH. intuition congruence.
Qed.

Lemma insert_desc_by_length x l :
  length (insert_desc_by key x l) = S (length l).
Proof.
  induction l as [| e rest IH]; simpl; [reflexivity |].
  destruct (key e <=? key x)%Z; simpl; [reflexivity | now rewrite IH].
Qed.

Lemma insert_desc_by_sorted x l :
  StronglySorted (desc_by key) l -> StronglySorted (desc_by key) (insert_desc_by key x l).
Proof.
  induction 1 as [| e rest Hs IH Hall]; simpl.
  - constructor; constructor.
  - destruct (key e <=? key x)%Z eqn:E.
    + apply Z.leb_le in E.
      constructor; [constructor; assumption |].
      constructor; [exact E |].
      eapply Forall_impl; [| exact Hall].
      intros b Hb. unfold desc_by in *. lia.
    + apply Z.leb_gt in E.
      constructor; [exact IH |].
      apply Forall_forall. intros y Hy.
      apply insert_desc_by_In in Hy. destruct Hy as [-> | Hy].
      * unfold desc_by. lia.
      * rewrite Forall_forall in Hall. now apply Hall.
Qed.

Lemma sort_desc_by_In l y :
  In y (sort_desc_by key l) <-> In y l.
Proof.
  induction l as [| x rest IH]; simpl; [reflexivity |].
  rewrite insert_desc_by_In, IH. intuition congruence.
Qed.

Lemma sort_desc_by_length l :
  length (sort_desc_by key l) = length l.
Proof.
  induction l as [| x rest IH]; simpl; [reflexivity |].
  now rewrite insert_desc_by_length, IH.
Qed.

Lemma sort_desc_by_sorted l :
  StronglySorted (desc_by key) (sort_desc_by key l).
Proof.
  induction l as [| x rest IH]; simpl; [constructor |].
  now apply insert_desc_by_sorted.
Qed.

(** The first document of a sorted cursor is one of the documents and
    none has a larger key. *)
Lemma sort_desc_by_head l a :
  hd_error (sort_desc_by key l) = Some a ->
  In a l /\ forall b, In b l -> (key b <= key a)%Z.
Proof.
  intros H.
  pose proof (sort_desc_by_sorted l) as S.
  destruct (sort_desc_by key l) as [| x tl] eqn:E; [discriminate |].
  simpl in H. inversion H; subst x.
  split.
  - apply sort_desc_by_In. rewrite E. now left.
  - intros b Ib. apply sort_desc_by_In in Ib. rewrite E in Ib.
    destruct Ib as [<- | Ib]; [lia |].
    inversion S as [| ? ? _ Hall]; subst.
    rewrite Forall_forall in Hall. now apply Hall.
Qed.

Lemma sort_desc_by_empty l :
  hd_error (sort_desc_by key l) = None <-> l = [].
Proof.
  pose proof (sort_desc_by_length l) as L.
  destruct (sort_desc_by key l); destruct l; simpl in *;
    split; intros; try discriminate; reflexivity.
Qed.

(** A document appended last and dated after all the others comes
    first. *)
Lemma sort_desc_by_newest l x :
  (forall a, In a l -> (key a < key x)%Z) ->
  hd_error (sort_desc_by key (l ++ [x])) = Some x.
Proof.
  induction l as [| a rest IH]; intros H; simpl; [reflexivity |].
  assert (R : hd_error (sort_desc_by key (rest ++ [x])) = Some x).
  { apply IH. intros b Ib. apply H. now right. }
  destruct (sort_desc_by key (rest ++ [x])) as [| y tl]; [discriminate |].
  simpl in R. inversion R; subst y. simpl.
  assert (K : (key a < key x)%Z) by (apply H; now left).
  destruct (key x <=? key a)%Z eqn:E; [apply Z.leb_le in E; lia |].
  reflexivity.
Qed.

Lemma firstn_sorted_gen (R : A -> A -> Prop) n l :
  StronglySorted R l -> StronglySorted R (firstn n l).
Proof.
  intros H. revert n.
  induction H as [| e rest Hs IH Hall]; intros [| n]; simpl;
    try constructor.
  - apply IH.
  - rewrite Forall_forall in *. intros x Hx.
    apply Hall. eapply firstn_In. exact Hx.
Qed.

End SortBy.

(** ** Activities *)

(** X19: for a positive limit, the activity list has at most [limit]
    entries (all of the user's activities when there are fewer), holds
    only activities of the user, and is ordered by date, latest first. *)
Theorem get_activities_bounded_sorted :
  forall (N : PyNumber) (activities : list (Activity N)) uid limit,
    0 < limit ->
    length (get_activities activities uid limit)
    = Nat.min limit (length (filter (of_user uid) activities))
    /\ length (get_activities activities uid limit) <= limit
    /\ StronglySorted (desc_by a_date) (get_activities activities uid limit)
    /\ (forall a, In a (get_activities activities uid limit) ->
          In a activities /\ a_user_id a = uid).
Proof.
  intros N activities uid limit _. unfold get_activities.
  assert (L : length (firstn limit
                        (sort_desc_by a_date (filter (of_user uid) activities)))
              = Nat.min limit (length (filter (of_user uid) activities))).
  { now rewrite length_firstn, sort_desc_by_length. }
  split; [exact L |]. split; [rewrite L; apply Nat.le_min_l |]. split.
  - apply firstn_sorted_gen, sort_desc_by_sorted.
  - intros a I. apply firstn_In in I. apply sort_desc_by_In in I.
    apply filter_In in I. destruct I as [I U]. split; [exact I |].
    now apply String.eqb_eq.
Qed.

Lemma get_activities_bounded_sorted_witness :
  0 < 2
  /\ length (get_activities sample_activities "alice" 2) = 2
  /\ map a_id (get_activities sample_activities "alice" 2) = ["a4"; "a3"].
Proof.
  assert (P : 0 < 2) by lia.
  split; [exact P |].
  split; [| reflexivity].
  exact (proj1 (get_activities_bounded_sorted WholeNumbers
                  sample_activities "alice" 2 P)).
Defined.

(** X20: a created activity carries the fresh id, the caller as owner
    and the time of creation, and the caller finds it in the list when
    the limit exceeds the number of activities held before; it comes
    first when it is dated after all of them. *)
Theorem created_activity_is_listed :
  forall (N : PyNumber) (activities : list (Activity N)) body uid new_id now
         limit,
    length (filter (of_user uid) activities) < limit ->
    let activities' := fst (create_activity activities body uid new_id now) in
    let created := snd (create_activity activities body uid new_id now) in
    a_id created = new_id /\ a_user_id created = uid /\ a_date created = now
    /\ a_distance created = c_distance body
    /\ In created (get_activities activities' uid limit)
    /\ ((forall a, In a activities -> a_user_id a = uid ->
                   (a_date a < now)%Z) ->
        hd_error (get_activities activities' uid limit) = Some created).
Proof.
  intros N activities body uid new_id now limit L activities' created.
  subst activities' created. unfold create_activity, get_activities.
  cbn [fst snd].
  set (obj := mkActivity new_id uid _ _ _ now _).
  assert (F : filter (of_user uid) (activities ++ [obj])
              = filter (of_user uid) activities ++ [obj]).
  { rewrite filter_app. simpl. unfold of_user at 2. simpl.
    now rewrite String.eqb_refl. }
  rewrite F.
  repeat (split; [reflexivity |]).
  rewrite firstn_all2
    by (rewrite sort_desc_by_length, length_app; simpl; lia).
  split.
  - apply sort_desc_by_In. apply in_or_app. right. now left.
  - intros H. apply sort_desc_by_newest.
    intros a I. apply filter_In in I. destruct I as [I U].
    apply (H a I). unfold of_user in U. now apply String.eqb_eq.
Qed.

Lemma created_activity_is_listed_witness :
  hd_error
    (get_activities
       (fst (create_activity sample_activities
               (mkActivityCreate (N := WholeNumbers) "cycle" 40 None None)
               "alice" "a5" 5000))
       "alice" 50)
  = Some (mkActivity "a5" "alice" "cycle" 40 None 5000 None).
Proof.
  assert (L : length (filter (of_user "alice") sample_activities) < 50)
    by (simpl; lia).
  destruct (created_activity_is_listed WholeNumbers sample_activities
              (mkActivityCreate "cycle" 40 None None) "alice" "a5" 5000 50 L)
    as (_ & _ & _ & _ & _ & H).
  apply H. intros a I U. simpl in I.
  repeat (destruct I as [<- | I]; [simpl; lia |]). destruct I.
Defined.

Lemma sum_from_none (N : PyNumber) (xs : list (option (num N))) :
  forall acc, sum_from acc xs = None <-> In None xs.
Proof.
  induction xs as [| [x |] rest IH]; intros acc; simpl.
  - split; [discriminate | intros []].
  - rewrite IH. split; [now right | intros [E | I]; [discriminate | exact I]].
  - split; [now left | reflexivity].
Qed.

Lemma count_by_type_none (N : PyNumber) (l : list (Activity N)) :
  forall by_type,
    count_by_type l by_type = None
    <-> exists a, In a l /\ a_distance a = None.
Proof.
  induction l as [| a rest IH]; intros by_type; simpl.
  - split; [discriminate | intros [a [[] _]]].
  - destruct (a_distance a) as [d |] eqn:E.
    + rewrite IH. split.
      * intros [b [I D]]. exists b. split; [now right | exact D].
      * intros [b [[<- | I] D]]; [congruence | now exists b].
    + split; [| reflexivity]. intros _. exists a. split; [now left | exact E].
Qed.

Lemma in_map_none (N : PyNumber) (l : list (Activity N)) :
  In None (map a_distance l) <-> exists a, In a l /\ a_distance a = None.
Proof.
  rewrite in_map_iff. split; intros [a [X Y]]; exists a; tauto.
Qed.

Lemma stats_fail_on_missing_distance_aux (N : PyNumber) add_error
  (activities : list (Activity N)) uid now :
  (exists a, In a (recent_activities activities uid now)
             /\ a_distance a = None) ->
  get_activity_stats add_error activities uid now
  = inl (mkHTTPException 500 add_error).
Proof.
  intros H. unfold get_activity_stats.
  destruct (sum_from (num_zero N)
              (map a_distance (recent_activities activities uid now))) eqn:S;
    [| reflexivity].
  apply in_map_none in H. apply (sum_from_none N _ (num_zero N)) in H.
  congruence.
Qed.

(** X21: the statistics fail, with a 500, exactly when one of the
    activities they are computed from was stored without a distance. *)
Theorem stats_fail_on_missing_distance :
  forall (N : PyNumber) add_error (activities : list (Activity N)) uid now,
    (exists a, In a (recent_activities activities uid now)
               /\ a_distance a = None)
    <-> get_activity_stats add_error activities uid now
        = inl (mkHTTPException 500 add_error).
Proof.
  intros N add_error activities uid now. unfold get_activity_stats.
  set (recent := recent_activities activities uid now).
  split.
  - intros H.
    destruct (sum_from (num_zero N) (map a_distance recent)) eqn:S;
      [| reflexivity].
    apply in_map_none in H. apply (sum_from_none N _ (num_zero N)) in H.
    congruence.
  - intros H.
    destruct (sum_from (num_zero N) (map a_distance recent)) eqn:S.
    + destruct (count_by_type recent []) eqn:C; [discriminate H |].
      now apply count_by_type_none in C.
    + apply sum_from_none in S. now apply in_map_none.
Qed.

(** X22: logging an activity without a distance makes the statistics of
    its owner fail for as long as it is within the 7 days they cover. *)
Theorem activity_without_distance_breaks_stats :
  forall (N : PyNumber) add_error (activities : list (Activity N)) body uid
         new_id t now,
    c_distance body = None ->
    (now - days 7 <= t)%Z ->
    length (recent_activities activities uid now) < 1000 ->
    get_activity_stats add_error
      (fst (create_activity activities body uid new_id t)) uid now
    = inl (mkHTTPException 500 add_error).
Proof.
  intros N add_error activities body uid new_id t now D T L.
  apply stats_fail_on_missing_distance_aux.
  unfold create_activity. cbn [fst].
  set (obj := mkActivity new_id uid _ _ _ t _).
  exists obj. split; [| exact D].
  assert (P : of_user uid obj && (now - days 7 <=? a_date obj)%Z = true).
  { apply andb_true_iff. split.
    - apply String.eqb_refl.
    - apply Z.leb_le. exact T. }
  unfold recent_activities in *. rewrite filter_app.
  cbn [filter]. rewrite P.
  rewrite length_firstn in L.
  rewrite firstn_all2.
  - apply in_or_app. right. now left.
  - rewrite length_app. cbn [length]. lia.
Qed.

Lemma activity_without_distance_breaks_stats_witness :
  get_activity_stats "unsupported operand"
    (fst (create_activity sample_activities
            (mkActivityCreate (N := WholeNumbers) "cycle" 40 None None)
            "alice" "a5" 5000))
    "alice" 6000
  = inl (mkHTTPException 500 "unsupported operand").
Proof.
  apply (activity_without_distance_breaks_stats WholeNumbers
           "unsupported operand" sample_activities
           (mkActivityCreate "cycle" 40 None None) "alice" "a5" 5000 6000).
  - reflexivity.
  - unfold days. lia.
  - simpl. lia.
Defined.

Section ByType.

Variable N : PyNumber.

Lemma fold_left_add_zsum l : forall a, fold_left Z.add l a = (a + zsum l)%Z.
Proof.
  induction l as [| x rest IH]; intros a; simpl; [lia |].
  rewrite IH. unfold zsum. lia.
Qed.

Lemma ensure_type_keys ty (bt : list (string * TypeStats N)) k :
  In k (map fst (ensure_type ty bt)) <-> k = ty \/ In k (map fst bt).
Proof.
  induction bt as [| [k0 st] rest IH]; simpl.
  - intuition congruence.
  - destruct (String.eqb_spec k0 ty) as [-> | D]; simpl.
    + intuition congruence.
    + rewrite IH. intuition congruence.
Qed.

Lemma ensure_type_nodup ty (bt : list (string * TypeStats N)) :
  NoDup (map fst bt) -> NoDup (map fst (ensure_type ty bt)).
Proof.
  induction bt as [| [k0 st] rest IH]; simpl; intros H.
  - constructor; [intros [] | constructor].
  - destruct (String.eqb_spec k0 ty) as [-> | D]; simpl; [exact H |].
    inversion H as [| ? ? Hn Hr]; subst.
    constructor; [| now apply IH].
    intros I. apply ensure_type_keys in I. destruct I as [-> | I];
      [now apply D | contradiction].
Qed.

Lemma ensure_type_totals ty (bt : list (string * TypeStats N)) :
  total_count (ensure_type ty bt) = total_count bt
  /\ total_duration (ensure_type ty bt) = total_duration bt.
Proof.
  unfold total_count, total_duration.
  induction bt as [| [k0 st] rest [IHc IHd]]; simpl; [split; reflexivity |].
  destruct (String.eqb k0 ty); simpl; [split; reflexivity |].
  rewrite IHc, IHd. split; reflexivity.
Qed.

Lemma add_to_type_keys ty d x (bt : list (string * TypeStats N)) :
  map fst (add_to_type ty d x bt) = map fst bt.
Proof.
  induction bt as [| [k0 st] rest IH]; simpl; [reflexivity |].
  destruct (String.eqb k0 ty); simpl; [reflexivity | now rewrite IH].
Qed.

Lemma add_to_type_totals ty d x (bt : list (string * TypeStats N)) :
  In ty (map fst bt) ->
  total_count (add_to_type ty d x bt) = total_count bt + 1
  /\ total_duration (add_to_type ty d x bt) = (total_duration bt + d)%Z.
Proof.
  unfold total_count, total_duration, zsum.
  induction bt as [| [k0 st] rest IH]; simpl; [intros [] |].
  intros I. destruct (String.eqb_spec k0 ty) as [-> | D]; simpl.
  - split; lia.
  - destruct I as [E | I]; [contradiction |].
    destruct (IH I) as [IHc IHd]. rewrite IHc, IHd. split; lia.
Qed.

(** What the loop over the activities leaves in the table. *)
Lemma count_by_type_invariant (l : list (Activity N)) :
  forall (bt bt' : list (string * TypeStats N)),
    count_by_type l bt = Some bt' ->
    total_count bt' = total_count bt + length l
    /\ total_duration bt' = (total_duration bt + zsum (map a_duration l))%Z
    /\ (NoDup (map fst bt) -> NoDup (map fst bt'))
    /\ (forall k, In k (map fst bt')
                  <-> In k (map fst bt) \/ exists a, In a l /\ a_type a = k).
Proof.
  induction l as [| a rest IH]; intros bt bt' H; simpl in H.
  - inversion H; subst. simpl. repeat split; try lia; try tauto.
    + intros [I | [a [[] _]]]. exact I.
  - destruct (a_distance a) as [d |]; [| discriminate H].
    apply IH in H. destruct H as (C & D & U & K).
    destruct (ensure_type_totals (a_type a) bt) as [Ec Ed].
    assert (I : In (a_type a) (map fst (ensure_type (a_type a) bt)))
      by (apply ensure_type_keys; now left).
    destruct (add_to_type_totals (a_type a) (a_duration a) d _ I) as [Ac Ad].
    rewrite Ac, Ec in C. rewrite Ad, Ed in D.
    rewrite add_to_type_keys in U, K.
    split; [simpl; lia |]. split; [simpl; unfold zsum in *; simpl; lia |].
    split.
    + intros Hn. apply U. now apply ensure_type_nodup.
    + intros k. rewrite K, ensure_type_keys. split.
      * intros [[-> | Ik] | [b [Ib Tb]]].
        -- right. exists a. split; [now left | reflexivity].
        -- now left.
        -- right. exists b. split; [now right | exact Tb].
      * intros [Ik | [b [[<- | Ib] Tb]]].
        -- left. now right.
        -- left. left. now symmetry.
        -- right. now exists b.
Qed.

End ByType.

(** X23: when the statistics succeed, the totals are those of the user's
    activities of the last 7 days (at most 1000 of them), the table has
    one entry per activity type met, and its counts and durations add up
    to the totals. *)
Theorem stats_totals_agree :
  forall (N : PyNumber) add_error (activities : list (Activity N)) uid now st,
    get_activity_stats add_error activities uid now = inr st ->
    let recent := recent_activities activities uid now in
    st_total_activities st = length recent
    /\ st_total_activities st <= 1000
    /\ st_total_duration st = zsum (map a_duration recent)
    /\ total_count (st_by_type st) = st_total_activities st
    /\ total_duration (st_by_type st) = st_total_duration st
    /\ NoDup (map fst (st_by_type st))
    /\ (forall ty, In ty (map fst (st_by_type st))
                   <-> exists a, In a recent /\ a_type a = ty)
    /\ (forall a, In a recent ->
          In a activities /\ a_user_id a = uid
          /\ (now - days 7 <= a_date a)%Z /\ a_distance a <> None).
Proof.
  intros N add_error activities uid now st H recent.
  pose proof H as H0.
  unfold get_activity_stats in H. fold recent in H.
  destruct (sum_from (num_zero N) (map a_distance recent)) as [td |] eqn:S;
    [| discriminate H].
  destruct (count_by_type recent []) as [bt |] eqn:C; [| discriminate H].
  inversion H; subst st; clear H.
  cbn [st_total_activities st_total_duration st_by_type].
  destruct (count_by_type_invariant N recent [] bt C) as (Cn & Dn & U & K).
  split; [reflexivity |]. split.
  { unfold recent, recent_activities. apply firstn_le_length. }
  split; [rewrite fold_left_add_zsum; lia |].
  split; [exact Cn |].
  split; [rewrite fold_left_add_zsum; exact Dn |].
  split; [apply U; constructor |].
  split.
  - intros ty. rewrite K. simpl. tauto.
  - intros a I. assert (I' := I).
    unfold recent, recent_activities in I.
    apply firstn_In in I. apply filter_In in I. destruct I as [I P].
    apply andb_true_iff in P. destruct P as [P1 P2].
    split; [exact I |]. split; [now apply String.eqb_eq |].
    split; [now apply Z.leb_le |].
    intros D.
    assert (E : In None (map a_distance
                           (recent_activities activities uid now))).
    { apply in_map_none. now exists a. }
    apply (sum_from_none N _ (num_zero N)) in E.
    unfold recent in S. congruence.
Qed.

Lemma stats_totals_agree_witness :
  exists st,
    get_activity_stats "unsupported operand" sample_activities "alice" 5000
    = inr st
    /\ st_total_activities st = 3
    /\ st_total_duration st = 65%Z
    /\ total_count (st_by_type st) = 3
    /\ map fst (st_by_type st) = ["walk"; "run"].
Proof.
  eexists. split; [reflexivity |].
  destruct (stats_totals_agree WholeNumbers "unsupported operand"
              sample_activities "alice" 5000 _ eq_refl)
    as (A & _ & B & C & _).
  split; [exact A |]. split; [exact B |]. split; [exact C | reflexivity].
Defined.

(** X24: what one user logs never shows in what another user gets: the
    other user's activity list and statistics are the same before and
    after. *)
Theorem other_users_activities_unaffected :
  forall (N : PyNumber) add_error (activities : list (Activity N)) body
         owner new_id t uid now limit,
    owner <> uid ->
    let activities' := fst (create_activity activities body owner new_id t) in
    get_activities activities' uid limit = get_activities activities uid limit
    /\ get_activity_stats add_error activities' uid now
       = get_activity_stats add_error activities uid now.
Proof.
  intros N add_error activities body owner new_id t uid now limit D
    activities'.
  subst activities'. unfold create_activity. cbn [fst].
  set (obj := mkActivity new_id owner _ _ _ t _).
  assert (O : of_user uid obj = false).
  { unfold of_user. simpl. now apply String.eqb_neq. }
  split.
  - unfold get_activities. rewrite filter_app. cbn [filter].
    rewrite O, app_nil_r. reflexivity.
  - unfold get_activity_stats, recent_activities.
    rewrite filter_app. cbn [filter]. rewrite O. cbn [andb].
    rewrite app_nil_r. reflexivity.
Qed.

Lemma other_users_activities_unaffected_witness :
  "alice" <> "bob"
  /\ get_activity_stats "unsupported operand"
       (fst (create_activity sample_activities
               (mkActivityCreate (N := WholeNumbers) "cycle" 40 None None)
               "alice" "a5" 5000))
       "bob" 6000
     = get_activity_stats "unsupported operand" sample_activities "bob" 6000.
Proof.
  assert (D : "alice" <> "bob") by discriminate.
  split; [exact D |].
  exact (proj2 (other_users_activities_unaffected WholeNumbers
                  "unsupported operand" sample_activities
                  (mkActivityCreate "cycle" 40 None None)
                  "alice" "a5" 5000 "bob" 6000 50 D)).
Defined.

(** ** Health summary *)

Lemma last_or_none_snoc (A : Type) (l : list A) (m : A) :
  Py.last_or_none l = Some m -> exists earlier, l = earlier ++ [m].
Proof.
  rewrite last_or_none_rev. intros H.
  destruct (rev l) as [| x r] eqn:E; [discriminate |].
  simpl in H. inversion H; subst x.
  exists (rev r). rewrite <- (rev_involutive l), E. reflexivity.
Qed.

Lemma sort_created_desc_head l chat :
  hd_error (Chats.sort_created_desc l) = Some chat ->
  In chat l
  /\ forall other, In other l -> (created_at other <= created_at chat)%Z.
Proof.
  intros H.
  pose proof (sort_created_desc_sorted l) as S.
  destruct (Chats.sort_created_desc l) as [| x tl] eqn:E; [discriminate |].
  simpl in H. inversion H; subst x. split.
  - apply sort_created_desc_In. rewrite E. now left.
  - intros other I. apply sort_created_desc_In in I. rewrite E in I.
    destruct I as [<- | I]; [lia |].
    inversion S as [| ? ? _ Hall]; subst.
    rewrite Forall_forall in Hall. now apply Hall.
Qed.

Lemma summary_preview_shape c :
  String.length (summary_preview c) <= 103
  /\ (String.length c <= 100 -> summary_preview c = c)
  /\ (100 < String.length c ->
      exists shown dropped,
        c = (shown ++ dropped)%string
        /\ String.length shown = 100
        /\ summary_preview c = (shown ++ "...")%string).
Proof.
  unfold summary_preview.
  destruct (Nat.ltb_spec 100 (String.length c)) as [L | L].
  - split; [| split].
    + rewrite str_length_app. simpl.
      pose proof (str_take_length 100 c). lia.
    + intros H. lia.
    + intros _. destruct (str_take_prefix 100 c) as [rest [E K]].
      exists (Py.str_take 100 c), rest.
      split; [exact E |]. split; [rewrite K; lia | reflexivity].
  - split; [lia |]. split; [reflexivity | intros H; lia].
Qed.

(** X25: the last chat of the health summary is taken from a session of
    the user than which none was created later, it is the last message
    of that session with its timestamp, and its content is shown whole
    when it has at most 100 characters and otherwise cut to 100
    characters followed by three dots. *)
Theorem health_summary_last_chat :
  forall (N : PyNumber) (activities : list (Activity N)) chats uid lc,
    hs_last_chat (get_health_summary activities chats uid) = Some lc ->
    exists chat earlier m,
      In chat chats /\ user_id chat = uid
      /\ (forall other, In other chats -> user_id other = uid ->
            (created_at other <= created_at chat)%Z)
      /\ messages chat = earlier ++ [m]
      /\ lc_timestamp lc = timestamp m
      /\ String.length (lc_content lc) <= 103
      /\ (String.length (content m) <= 100 -> lc_content lc = content m)
      /\ (100 < String.length (content m) ->
          exists shown dropped,
            content m = (shown ++ dropped)%string
            /\ String.length shown = 100
            /\ lc_content lc = (shown ++ "...")%string).
Proof.
  intros N activities chats uid lc H.
  unfold get_health_summary in H. cbn [hs_last_chat] in H.
  destruct (hd_error (Chats.sort_created_desc (Chats.find_user uid chats)))
    as [chat |] eqn:Hd; [| discriminate H].
  destruct (Py.last_or_none (messages chat)) as [m |] eqn:Lm;
    [| discriminate H].
  inversion H; subst lc; clear H.
  apply sort_created_desc_head in Hd. destruct Hd as [I Max].
  unfold Chats.find_user in I. apply filter_In in I. destruct I as [I U].
  apply String.eqb_eq in U.
  destruct (last_or_none_snoc _ _ _ Lm) as [earlier E].
  destruct (summary_preview_shape (content m)) as (P1 & P2 & P3).
  exists chat, earlier, m. cbn [lc_timestamp lc_content].
  split; [exact I |]. split; [exact U |]. split.
  - intros other Io Uo. apply Max. unfold Chats.find_user.
    apply filter_In. split; [exact Io |]. now apply String.eqb_eq.
  - repeat split; assumption.
Qed.

Lemma health_summary_last_chat_witness :
  hs_last_chat
    (get_health_summary sample_activities sample_store "alice")
  = Some (mkLastChat "Drink warm fluids." 11)
  /\ exists chat earlier m,
       In chat sample_store /\ user_id chat = "alice"
       /\ messages chat = earlier ++ [m]
       /\ timestamp m = 11%Z.
Proof.
  split; [reflexivity |].
  destruct (health_summary_last_chat WholeNumbers sample_activities
              sample_store "alice" (mkLastChat "Drink warm fluids." 11)
              eq_refl)
    as (chat & earlier & m & A & B & _ & C & D & _).
  exists chat, earlier, m. simpl in D. auto.
Defined.

(** X26: the counters of the health summary count all sessions and all
    activities of the user, also beyond the 20 sessions the session list
    shows; without a session there is no last chat, and there is a last
    activity exactly when the user has one, in which case no activity of
    the user is dated later. *)
Theorem health_summary_counts :
  forall (N : PyNumber) (activities : list (Activity N)) chats uid,
    let s := get_health_summary activities chats uid in
    hs_total_chats s = length (Chats.find_user uid chats)
    /\ length (get_chat_sessions chats uid) = Nat.min 20 (hs_total_chats s)
    /\ (hs_total_chats s = 0 -> hs_last_chat s = None)
    /\ hs_total_activities s = length (filter (of_user uid) activities)
    /\ (hs_last_activity s = None <-> hs_total_activities s = 0)
    /\ (forall a, hs_last_activity s = Some a ->
          In a activities /\ a_user_id a = uid
          /\ forall b, In b activities -> a_user_id b = uid ->
                       (a_date b <= a_date a)%Z).
Proof.
  intros N activities chats uid s. subst s. unfold get_health_summary.
  cbn [hs_total_chats hs_last_chat hs_total_activities hs_last_activity].
  split; [reflexivity |]. split.
  { unfold get_chat_sessions, listed_chats, sessions_limit.
    now rewrite length_map, length_firstn, sort_created_desc_length. }
  split.
  { intros Z. apply length_zero_iff_nil in Z. now rewrite Z. }
  split; [reflexivity |]. split.
  - rewrite sort_desc_by_empty. apply iff_sym, length_zero_iff_nil.
  - intros a H. apply sort_desc_by_head in H. destruct H as [I Max].
    apply filter_In in I. destruct I as [I U].
    split; [exact I |]. split; [now apply String.eqb_eq |].
    intros b Ib Ub. apply Max. apply filter_In. split; [exact Ib |].
    unfold of_user. now apply String.eqb_eq.
Qed.

Lemma health_summary_counts_witness :
  hs_total_chats
    (get_health_summary (N := WholeNumbers) [] [] "alice") = 0
  /\ hs_last_chat
       (get_health_summary (N := WholeNumbers) [] [] "alice") = None
  /\ option_map a_id
       (hs_last_activity
          (get_health_summary sample_activities sample_store "alice"))
     = Some "a4".
Proof.
  destruct (health_summary_counts WholeNumbers [] [] "alice")
    as (A & _ & B & _).
  split; [exact A |]. split; [exact (B A) | reflexivity].
Defined.

Lemma stats_fail_on_missing_distance_witness :
  get_activity_stats "unsupported operand"
    [mkActivity (N := WholeNumbers) "a9" "dave" "walk" 15 None 100 None]
    "dave" 200
  = inl (mkHTTPException 500 "unsupported operand").
Proof.
  apply (proj1 (stats_fail_on_missing_distance WholeNumbers
                  "unsupported operand"
                  [mkActivity "a9" "dave" "walk" 15 None 100 None]
                  "dave" 200)).
  eexists. split; [left; reflexivity | reflexivity].
Defined.

(** ** Closing remarks on topics, advisories and tokens *)

Lemma topic_range_witness :
  extract_symptom "I sleep badly" = None
  /\ In "Cough" ["Headache"; "Fever"; "Cough"; "Pain"; "Tired"; "Nausea";
                 "Dizzy"].
Proof.
  destruct (topic_range "I sleep badly") as [[_ A] _].
  destruct (topic_range "A dry COUGH at night") as [_ B].
  split.
  - apply A. intros k I. simpl in I.
    repeat (destruct I as [<- | I]; [reflexivity |]). destruct I.
  - apply B. reflexivity.
Defined.

Lemma alert_message_ranges_witness :
  Weather.alert_message 20 "Light Rain" = Weather.rain_text
  /\ Weather.alert_message (-3) "Snow" <> Weather.freezing_text.
Proof.
  destruct (alert_message_ranges 20 "Light Rain") as (_ & _ & _ & _ & R & _).
  split.
  - apply R. repeat split; try reflexivity; discriminate.
  - exact (proj1 (alert_message_ranges (-3) "Snow")).
Defined.

(** X27: a successful sign-in issues a bearer token whose subject is the
    identifier of the user it returns and whose expiry lies 7 days after
    the time of issue. *)
Theorem sign_in_token_for_returned_user :
  forall users env gu email,
    tokeninfo env = TokenInfoAnswered 200 (inr gu) ->
    g_email gu = Some email ->
    exists r,
      snd (google_auth users env) = inr r
      /\ token_type r = "bearer"
      /\ au_email (auth_user r) = email
      /\ access_token r
         = jwt_encode env (au_id (auth_user r))
             (auth_now_token env + days 7)%Z.
Proof.
  intros users env gu email T E.
  destruct (google_auth_verified users env gu email T E)
    as (user & R & _ & _ & New & Old).
  exists (auth_response env user). split; [exact R |].
  split; [reflexivity |]. split; [| reflexivity].
  simpl. destruct (Users.find_by_email email users) as [u |] eqn:F.
  - destruct Old as (Fu & _); [discriminate |].
    inversion Fu; subst u.
    unfold Users.find_by_email in F. apply find_some in F.
    destruct F as [_ Q]. now apply String.eqb_eq in Q.
  - now destruct (New eq_refl) as (_ & _ & Q).
Qed.

Lemma sign_in_token_for_returned_user_witness :
  exists r,
    snd (google_auth sample_users (sample_auth_env "bob@example.org" 100))
    = inr r
    /\ au_id (auth_user r) = "u2"
    /\ access_token r = "token-for-u2".
Proof.
  destruct (sign_in_token_for_returned_user sample_users
              (sample_auth_env "bob@example.org" 100)
              (mkGoogleUser (Some "bob@example.org") (Some "Carol") None)
              "bob@example.org" eq_refl eq_refl)
    as (r & A & _ & _ & _).
  exists r. split; [exact A |].
  simpl in A. inversion A. split; reflexivity.
Defined.
